(** * ssh-push: a shallow embedding of [ssh_push.py]

    The tool is glue around three kinds of effect: the local file system
    (the configuration file and the files to push), the terminal (prompts
    read with [input], lines written with [print] and [logging]) and child
    processes ([ssh] and [scp], started with [subprocess.run]).  The
    embedding threads one [world] value through every function and lets a
    function either return a value or raise a Python exception. *)

From Stdlib Require Import ZArith String Ascii List Lia.
From stdpp Require Import base tactics option list strings gmap pretty.

Local Open Scope string_scope.
Local Open Scope Z_scope.

(** ** Python values and the operations the source applies to them *)

Module Py.

(** The values a configuration record holds: what [json.load] yields for
    the scalars of a flat JSON object, and what the configurator stores
    ([str] and [int]). *)
Inductive value : Type :=
  | VNull
  | VBool (b : bool)
  | VInt (n : Z)
  | VStr (s : string).

#[global] Instance value_eq_dec : EqDecision value.
Proof. solve_decision. Defined.

(** The exceptions that occur in the program.  [OSError] stands for the
    whole family ([IOError] is the same class in Python 3, and
    [PermissionError], [FileNotFoundError] are subclasses). *)
Inductive exn : Type :=
  | KeyError (key : string)
  | TypeError (msg : string)
  | EOFError (msg : string)
  | OSError (msg : string)
  | TimeoutExpired (msg : string)
  | JSONDecodeError (msg : string).

#[global] Instance exn_eq_dec : EqDecision exn.
Proof. solve_decision. Defined.

(** [bool(v)]. *)
Definition truthy (v : value) : bool :=
  match v with
  | VNull => false
  | VBool b => b
  | VInt n => negb (n =? 0)
  | VStr s => negb (String.eqb s "")
  end.

(** [str(v)]. *)
Definition str (v : value) : string :=
  match v with
  | VNull => "None"
  | VBool true => "True"
  | VBool false => "False"
  | VInt n => pretty n
  | VStr s => s
  end.

Definition type_name (v : value) : string :=
  match v with
  | VNull => "NoneType"
  | VBool _ => "bool"
  | VInt _ => "int"
  | VStr _ => "str"
  end.

(** [str(e)] for an exception. *)
Definition str_exn (e : exn) : string :=
  match e with
  | KeyError k => "'" ++ k ++ "'"
  | TypeError m | EOFError m | OSError m | TimeoutExpired m
  | JSONDecodeError m => m
  end.

(** [v == s] for a string literal [s]: only the string [s] itself is equal
    to it. *)
Definition eq_str (v : value) (s : string) : bool :=
  bool_decide (v = VStr s).

(** The characters [str.strip()] removes, restricted to ASCII. *)
Definition is_space (a : ascii) : bool :=
  let n := nat_of_ascii a in
  ((9 <=? n) && (n <=? 13) || (28 <=? n) && (n <=? 32))%nat.

Fixpoint lstrip (s : string) : string :=
  match s with
  | String a s' => if is_space a then lstrip s' else s
  | EmptyString => EmptyString
  end.

Definition rstrip (s : string) : string :=
  String.rev (lstrip (String.rev s)).

Definition strip (s : string) : string := rstrip (lstrip s).

Definition is_digit (a : ascii) : bool :=
  let n := nat_of_ascii a in ((48 <=? n) && (n <=? 57))%nat.

Fixpoint all_digits (s : string) : bool :=
  match s with
  | String a s' => is_digit a && all_digits s'
  | EmptyString => true
  end.

(** [s.isdigit()]: at least one character and only digits. *)
Definition isdigit (s : string) : bool :=
  match s with
  | EmptyString => false
  | _ => all_digits s
  end.

Fixpoint int_acc (acc : Z) (s : string) : Z :=
  match s with
  | String a s' => int_acc (10 * acc + (Z.of_nat (nat_of_ascii a) - 48)) s'
  | EmptyString => acc
  end.

(** [int(s)] on a string of digits. *)
Definition int (s : string) : Z := int_acc 0 s.

(** [needle in hay]. *)
Fixpoint contains (needle hay : string) : bool :=
  String.prefix needle hay ||
  match hay with
  | String _ hay' => contains needle hay'
  | EmptyString => false
  end.

(** [c * n] for a one-character string. *)
Fixpoint repeat_str (c : string) (n : nat) : string :=
  match n with
  | O => ""
  | S n' => c ++ repeat_str c n'
  end.

(** [sep.join(l)]. *)
Fixpoint join (sep : string) (l : list string) : string :=
  match l with
  | [] => ""
  | [x] => x
  | x :: l' => x ++ sep ++ join sep l'
  end.

End Py.

Export Py.

(** ** The world a run takes place in *)

(** An entry of the local file system.  What matters of a file is what
    [json.load] makes of it: a flat JSON object, or text it rejects with
    the given message. *)
Inductive file : Type :=
  | Json (c : gmap string value)
  | NotJson (decode_error : string).

(** What [subprocess.run] comes back with: the child's exit status and
    its two output streams, or an exception (the time limit passed, the
    binary is missing, the argument list is ill-typed, ...). *)
Inductive outcome : Type :=
  | Exited (returncode : Z) (out err : string)
  | Raised (e : exn).

Inductive level : Type := DEBUG | INFO | WARNING | ERROR.

(** What a run leaves behind, in order. *)
Inductive event : Type :=
  | Printed (line : string)
  | Prompted (prompt : string)
  | Logged (lvl : level) (msg : string)
  | Ran (args : list value) (res : outcome).

(** The state threaded through the program.  [spawn] and [home] stand for
    what the program cannot decide itself: how a child process ends (this
    may depend on everything that happened before, so it receives the
    trace) and what [os.path.expanduser] substitutes. *)
Record world : Type := World {
  fs : gmap string file;
  unreadable : gset string;
  unwritable : gset string;
  stdin : list string;
  trace : list event;
  spawn : list event -> list string -> outcome;
  home : string -> string
}.

Definition emit (ev : event) (w : world) : world :=
  World (fs w) (unreadable w) (unwritable w) (stdin w) (trace w ++ [ev])
        (spawn w) (home w).

Definition set_input (lines : list string) (tr : list event) (w : world) : world :=
  World (fs w) (unreadable w) (unwritable w) lines tr (spawn w) (home w).

Definition store (path : string) (f : file) (w : world) : world :=
  World (<[path := f]> (fs w)) (unreadable w) (unwritable w) (stdin w) (trace w)
        (spawn w) (home w).

(** The child processes started so far. *)
Definition is_run (ev : event) : bool :=
  match ev with Ran _ _ => true | _ => false end.

Definition runs (w : world) : list event := List.filter is_run (trace w).

(** ** Computations: state and exceptions *)

Inductive result (A : Type) : Type :=
  | Ok (a : A)
  | Raise (e : exn).
Arguments Ok {A} a.
Arguments Raise {A} e.

Definition M (A : Type) : Type := world -> result A * world.

Definition ret {A} (a : A) : M A := fun w => (Ok a, w).

Definition raise {A} (e : exn) : M A := fun w => (Raise e, w).

Definition bind {A B} (m : M A) (k : A -> M B) : M B :=
  fun w =>
    match m w with
    | (Ok a, w') => k a w'
    | (Raise e, w') => (Raise e, w')
    end.

(** [try: m except ...: h e]; a handler re-raises what its [except]
    clause does not name. *)
Definition try_except {A} (m : M A) (h : exn -> M A) : M A :=
  fun w =>
    match m w with
    | (Ok a, w') => (Ok a, w')
    | (Raise e, w') => h e w'
    end.

Declare Scope py_scope.
Delimit Scope py_scope with py.
Notation "x <- m ;; k" := (bind m (fun x => k))
  (at level 100, m at next level, right associativity) : py_scope.
Notation "m ;; k" := (bind m (fun _ => k))
  (at level 100, right associativity) : py_scope.
Local Open Scope py_scope.

(** ** The library calls *)

Definition print (line : string) : M unit :=
  fun w => (Ok tt, emit (Printed line) w).

Definition logging (lvl : level) (msg : string) : M unit :=
  fun w => (Ok tt, emit (Logged lvl msg) w).

(** [input(prompt)]: the prompt is written, then a line is read; at the end
    of the input [EOFError] is raised. *)
Definition input (prompt : string) : M string :=
  fun w =>
    match stdin w with
    | l :: rest => (Ok l, set_input rest (trace w ++ [Prompted prompt]) w)
    | [] => (Raise (EOFError "EOF when reading a line"), emit (Prompted prompt) w)
    end.

(** [os.path.exists(path)]. *)
Definition path_exists (path : string) : M bool :=
  fun w => (Ok (bool_decide (is_Some (fs w !! path))), w).

(** [os.path.expanduser(v)]. *)
Definition expanduser (v : value) : M string :=
  fun w =>
    match v with
    | VStr s => (Ok (home w s), w)
    | _ => (Raise (TypeError ("expected str, bytes or os.PathLike object, not " ++ type_name v)), w)
    end.

(** [config[key]]. *)
Definition getitem (config : gmap string value) (key : string) : M value :=
  match config !! key with
  | Some v => ret v
  | None => raise (KeyError key)
  end.

(** [config.get(key, dflt)]; [config.get(key)] is [get config key VNull]. *)
Definition get (config : gmap string value) (key : string) (dflt : value) : value :=
  default dflt (config !! key).

(** [bool(config)]. *)
Definition nonempty (config : gmap string value) : bool :=
  bool_decide (config <> ∅).

Fixpoint argv_of (args : list value) : result (list string) :=
  match args with
  | [] => Ok []
  | VStr s :: rest =>
      match argv_of rest with
      | Ok l => Ok (s :: l)
      | Raise e => Raise e
      end
  | v :: _ =>
      Raise (TypeError ("expected str, bytes or os.PathLike object, not " ++ type_name v))
  end.

(** The [CompletedProcess] of a child; a stream that was not captured is
    [None]. *)
Record completed : Type := Completed {
  returncode : Z;
  stdout : value;
  stderr : value
}.

(** How the child started with [args] ends: an argument that is not a
    string makes [subprocess.run] raise before any process is started. *)
Definition child_outcome (args : list value) (w : world) : outcome :=
  match argv_of args with
  | Ok argv => spawn w (trace w) argv
  | Raise e => Raised e
  end.

(** [subprocess.run(args, capture_output=capture, text=True, ...)].  Every
    call is recorded with how it ended. *)
Definition subprocess_run (args : list value) (capture : bool) : M completed :=
  fun w =>
    let res := child_outcome args w in
    let w' := emit (Ran args res) w in
    match res with
    | Exited rc out err =>
        (Ok (Completed rc (if capture then VStr out else VNull)
                          (if capture then VStr err else VNull)), w')
    | Raised e => (Raise e, w')
    end.

(** [needle in v]. *)
Definition in_ (needle : string) (v : value) : M bool :=
  match v with
  | VStr s => ret (contains needle s)
  | _ => raise (TypeError ("argument of type '" ++ type_name v ++ "' is not iterable"))
  end.

(** [with open(path, 'r') as f: json.load(f)]. *)
Definition open_json_load (path : string) : M (gmap string value) :=
  fun w =>
    if bool_decide (path ∈ unreadable w) then
      (Raise (OSError ("[Errno 13] Permission denied: '" ++ path ++ "'")), w)
    else
      match fs w !! path with
      | Some (Json c) => (Ok c, w)
      | Some (NotJson msg) => (Raise (JSONDecodeError msg), w)
      | None => (Raise (OSError ("[Errno 2] No such file or directory: '" ++ path ++ "'")), w)
      end.

(** [with open(path, 'w') as f: json.dump(config, f, indent=2)]. *)
Definition open_json_dump (path : string) (config : gmap string value) : M unit :=
  fun w =>
    if bool_decide (path ∈ unwritable w) then
      (Raise (OSError ("[Errno 13] Permission denied: '" ++ path ++ "'")), w)
    else (Ok tt, store path (Json config) w).

(** ** The program *)

Definition CONFIG_FILE : string := ".ssh_push_config.json".

Definition dquote : string := String (ascii_of_nat 34) EmptyString.

Definition newline : string := String (ascii_of_nat 10) EmptyString.

Definition MARKER : string := "SSH connection test successful".

(** [load_config()], lines 37-46. *)
Definition load_config : M (gmap string value) :=
  let config_path := CONFIG_FILE in
  present <- path_exists config_path ;;
  if present then
    try_except (open_json_load config_path)
      (fun e =>
         match e with
         | JSONDecodeError _ | OSError _ =>
             logging WARNING ("Failed to load config file: " ++ str_exn e) ;;
             ret ∅
         | _ => raise e
         end)
  else ret ∅.

(** [save_config(config)], lines 48-56. *)
Definition save_config (config : gmap string value) : M unit :=
  let config_path := CONFIG_FILE in
  try_except
    (open_json_dump config_path config ;;
     logging INFO ("Configuration saved to " ++ config_path))
    (fun e =>
       match e with
       | OSError _ => logging ERROR ("Failed to save config: " ++ str_exn e)
       | _ => raise e
       end).

(** The command line of a remote shell command, lines 203-209, 300-306 and
    326-332: [ssh -p port host command], with [-i key] in front when the
    record asks for key authentication, names a key and the key file
    exists. *)
Definition ssh_command (config : gmap string value) (port hostname : value)
    (command : string) : M (list value) :=
  let ssh_cmd := [VStr "ssh"; VStr "-p"; VStr (str port); hostname; VStr command] in
  if eq_str (get config "auth_method" VNull) "key" && truthy (get config "key_path" VNull) then
    key <- getitem config "key_path" ;;
    key_path <- expanduser key ;;
    present <- path_exists key_path ;;
    if present then
      ret [VStr "ssh"; VStr "-i"; VStr key_path; VStr "-p"; VStr (str port); hostname;
           VStr command]
    else ret ssh_cmd
  else ret ssh_cmd.

(** [test_ssh_connection(config)], lines 196-215. *)
Definition test_ssh_connection (config : gmap string value) : M bool :=
  try_except
    (hostname <- getitem config "hostname" ;;
     let port := get config "port" (VInt 22) in
     ssh_cmd <- ssh_command config port hostname
                  ("echo " ++ dquote ++ MARKER ++ dquote) ;;
     result <- subprocess_run ssh_cmd true ;;
     if returncode result =? 0 then in_ MARKER (stdout result) else ret false)
    (fun e =>
       logging DEBUG ("SSH connection test failed: " ++ str_exn e) ;;
       ret false).

(** [ensure_remote_directory(config, remote_dir)], lines 293-312. *)
Definition ensure_remote_directory (config : gmap string value) (remote_dir : value)
    : M bool :=
  try_except
    (hostname <- getitem config "hostname" ;;
     let port := get config "port" (VInt 22) in
     ssh_cmd <- ssh_command config port hostname ("mkdir -p " ++ str remote_dir) ;;
     result <- subprocess_run ssh_cmd true ;;
     ret (returncode result =? 0))
    (fun e =>
       logging DEBUG ("Failed to create remote directory: " ++ str_exn e) ;;
       ret false).

(** [list_remote_files(config)], lines 314-347. *)
Definition list_remote_files (config : gmap string value) : M bool :=
  if negb (nonempty config) then
    logging ERROR "No SSH configuration found. Run --setup first." ;;
    ret false
  else
    try_except
      (hostname <- getitem config "hostname" ;;
       let port := get config "port" (VInt 22) in
       remote_dir <- getitem config "remote_dir" ;;
       ssh_cmd <- ssh_command config port hostname ("ls -la " ++ str remote_dir) ;;
       result <- subprocess_run ssh_cmd true ;;
       if returncode result =? 0 then
         print (newline ++ "Files in " ++ str remote_dir ++ ":") ;;
         print (repeat_str "=" 40) ;;
         print (str (stdout result)) ;;
         ret true
       else
         logging ERROR ("Failed to list remote files: " ++ str (stderr result)) ;;
         ret false)
      (fun e =>
         logging ERROR ("Error listing remote files: " ++ str_exn e) ;;
         ret false).

(** The command line of one copy, lines 261-274. *)
Definition scp_command (config : gmap string value) (verbose : bool)
    (hostname port remote_dir : value) (file_path : string) : M (list value) :=
  let scp_cmd := [VStr "scp"; VStr "-P"; VStr (str port)] in
  scp_cmd <-
    (if eq_str (get config "auth_method" VNull) "key" && truthy (get config "key_path" VNull)
     then
       key <- getitem config "key_path" ;;
       key_path <- expanduser key ;;
       present <- path_exists key_path ;;
       ret (if present then (scp_cmd ++ [VStr "-i"; VStr key_path])%list else scp_cmd)
     else ret scp_cmd) ;;
  let scp_cmd := if verbose then (scp_cmd ++ [VStr "-v"])%list else scp_cmd in
  ret (scp_cmd ++ [VStr file_path; VStr (str hostname ++ ":" ++ str remote_dir ++ "/")])%list.

(** The body of the [for] loop of [push_files] for one path, lines 255-288:
    the new value of [success_count]. *)
Definition push_one (config : gmap string value) (verbose : bool)
    (hostname port remote_dir : value) (success_count : nat) (file_path : string)
    : M nat :=
  present <- path_exists file_path ;;
  if negb present then
    logging WARNING ("File not found: " ++ file_path) ;;
    ret success_count
  else
    try_except
      (scp_cmd <- scp_command config verbose hostname port remote_dir file_path ;;
       (if verbose then logging INFO ("Executing: " ++ join " " (List.map str scp_cmd))
        else ret tt) ;;
       result <- subprocess_run scp_cmd (negb verbose) ;;
       if returncode result =? 0 then
         logging INFO ("✓ Pushed: " ++ file_path) ;;
         ret (S success_count)
       else
         logging ERROR ("✗ Failed to push " ++ file_path ++ ": " ++ str (stderr result)) ;;
         ret success_count)
      (fun e =>
         logging ERROR ("✗ Error pushing " ++ file_path ++ ": " ++ str_exn e) ;;
         ret success_count).

(** The [for] loop, lines 254-288. *)
Fixpoint push_loop (config : gmap string value) (verbose : bool)
    (hostname port remote_dir : value) (files : list string) (success_count : nat)
    : M nat :=
  match files with
  | [] => ret success_count
  | file_path :: rest =>
      success_count <- push_one config verbose hostname port remote_dir
                         success_count file_path ;;
      push_loop config verbose hostname port remote_dir rest success_count
  end.

(** [push_files(files, config, verbose)], lines 232-291. *)
Definition push_files (files : list string) (config : gmap string value)
    (verbose : bool) : M bool :=
  if negb (nonempty config) then
    logging ERROR "No SSH configuration found. Run --setup first." ;;
    ret false
  else if bool_decide (files = []) then
    logging ERROR "No files specified to push." ;;
    ret false
  else
    hostname <- getitem config "hostname" ;;
    let port := get config "port" (VInt 22) in
    remote_dir <- getitem config "remote_dir" ;;
    ensured <- ensure_remote_directory config remote_dir ;;
    if negb ensured then
      logging ERROR ("Failed to create remote directory: " ++ str remote_dir) ;;
      ret false
    else
      let total_files := length files in
      success_count <- push_loop config verbose hostname port remote_dir files 0%nat ;;
      logging INFO ("Push complete: " ++ pretty success_count ++ "/" ++ pretty total_files
                    ++ " files transferred successfully") ;;
      ret (bool_decide (success_count = total_files)).

(** A [while True:] loop around one prompt, lines 77-88, 96-101 and
    116-124: read a line, strip it, leave the loop with the answer when it
    is accepted, otherwise print the complaint and ask again.  The loop
    goes through the lines of the standard input one by one and ends with
    [EOFError] when they run out. *)
Fixpoint ask_lines {A} (prompt : string) (accept : string -> option A)
    (complaint : string) (lines : list string) (tr : list event)
    : result A * list string * list event :=
  match lines with
  | [] => (Raise (EOFError "EOF when reading a line"), [], (tr ++ [Prompted prompt])%list)
  | l :: rest =>
      match accept (strip l) with
      | Some a => (Ok a, rest, (tr ++ [Prompted prompt])%list)
      | None =>
          ask_lines prompt accept complaint rest
            (tr ++ [Prompted prompt; Printed complaint])%list
      end
  end.

Definition ask {A} (prompt : string) (accept : string -> option A)
    (complaint : string) : M A :=
  fun w =>
    let '(r, lines, tr) := ask_lines prompt accept complaint (stdin w) (trace w) in
    (r, set_input lines tr w).

(** [input(prompt).strip()]. *)
Definition input_strip (prompt : string) : M string :=
  answer <- input prompt ;;
  ret (strip answer).

(** [for key, value in config.items(): print(...)], lines 66-70; the
    entries come in the order of the map's keys. *)
Fixpoint print_items (items : list (string * value)) : M unit :=
  match items with
  | [] => ret tt
  | (key, value) :: rest =>
      (if String.eqb key "password" then
         print ("  " ++ key ++ ": " ++
                (if truthy value then repeat_str "*" (String.length (str value)) else "None"))
       else print ("  " ++ key ++ ": " ++ str value)) ;;
      print_items rest
  end.

(** The end of both flows, lines 131-139 and 186-194 (the same text):
    probe the host with the record, save and return the record when the
    probe succeeds, return the empty record when it fails. *)
Definition probe_and_save (config : gmap string value) : M (gmap string value) :=
  print (newline ++ "Testing SSH connection...") ;;
  reachable <- test_ssh_connection config ;;
  if reachable then
    print "✓ SSH connection successful!" ;;
    save_config config ;;
    ret config
  else
    print "✗ SSH connection failed. Please check your configuration." ;;
    ret ∅.

(** The prompts of [edit_ssh_config], lines 143-184: the record the flow
    goes on to probe. *)
Definition edit_prompts (existing_config : gmap string value) : M (gmap string value) :=
  print "Edit SSH Configuration" ;;
  print (repeat_str "=" 25) ;;
  print "Current values shown in [brackets]. Press Enter to keep current value." ;;
  let config := existing_config in
  let current_hostname := get existing_config "hostname" (VStr "") in
  hostname <- input_strip ("Remote hostname/IP [" ++ str current_hostname ++ "]: ") ;;
  let config := if negb (String.eqb hostname "") then <["hostname" := VStr hostname]> config
                else config in
  let current_port := get existing_config "port" (VInt 22) in
  port <- input_strip ("SSH port [" ++ str current_port ++ "]: ") ;;
  let config := if isdigit port then <["port" := VInt (int port)]> config else config in
  let current_remote_dir := get existing_config "remote_dir" (VStr "~/fpga_work") in
  remote_dir <- input_strip ("Remote working directory [" ++ str current_remote_dir ++ "]: ") ;;
  let config := if negb (String.eqb remote_dir "") then <["remote_dir" := VStr remote_dir]> config
                else config in
  let current_auth := get existing_config "auth_method" (VStr "key") in
  print (newline ++ "Current authentication method: " ++ str current_auth) ;;
  print "1. SSH key (recommended)" ;;
  print "2. Password" ;;
  auth_choice <- input_strip "Choose authentication method (1 or 2) [Enter to keep current]: " ;;
  let config := if String.eqb auth_choice "1" then <["auth_method" := VStr "key"]> config
                else if String.eqb auth_choice "2" then <["auth_method" := VStr "password"]> config
                else config in
  auth_method <- getitem config "auth_method" ;;
  if eq_str auth_method "key" then
    let current_key_path := get existing_config "key_path" (VStr "~/.ssh/id_rsa") in
    key_path <- input_strip ("SSH key path [" ++ str current_key_path ++ "]: ") ;;
    ret (if negb (String.eqb key_path "") then <["key_path" := VStr key_path]> config
         else config)
  else ret config.

(** [edit_ssh_config(existing_config)], lines 141-194. *)
Definition edit_ssh_config (existing_config : gmap string value) : M (gmap string value) :=
  config <- edit_prompts existing_config ;;
  probe_and_save config.

(** The prompts of the create flow, lines 90-129. *)
Definition create_prompts : M (gmap string value) :=
  print "SSH Configuration Setup" ;;
  print (repeat_str "=" 25) ;;
  let config : gmap string value := ∅ in
  hostname <- ask "Remote hostname/IP (e.g., pi@192.168.1.100): "
                (fun s => if String.eqb s "" then None else Some s)
                "Hostname cannot be empty." ;;
  let config := <["hostname" := VStr hostname]> config in
  port <- input_strip "SSH port (default: 22): " ;;
  let config := <["port" := VInt (if isdigit port then int port else 22)]> config in
  remote_dir <- input_strip "Remote working directory (default: ~/fpga_work): " ;;
  let config := <["remote_dir" := VStr (if String.eqb remote_dir "" then "~/fpga_work"
                                        else remote_dir)]> config in
  print (newline ++ "Authentication method:") ;;
  print "1. SSH key (recommended)" ;;
  print "2. Password" ;;
  auth_method <- ask "Choose authentication method (1 or 2): "
                   (fun s => if String.eqb s "1" then Some "key"
                             else if String.eqb s "2" then Some "password"
                             else None)
                   "Please enter 1 or 2." ;;
  let config := <["auth_method" := VStr auth_method]> config in
  auth <- getitem config "auth_method" ;;
  if eq_str auth "key" then
    key_path <- input_strip "SSH key path (default: ~/.ssh/id_rsa): " ;;
    ret (<["key_path" := VStr (if String.eqb key_path "" then "~/.ssh/id_rsa" else key_path)]>
           config)
  else ret config.

(** The create flow, lines 90-139: the prompts, then the probe. *)
Definition create_ssh_config : M (gmap string value) :=
  config <- create_prompts ;;
  probe_and_save config.

(** The answers to the menu of [setup_ssh_config], lines 77-88. *)
Inductive menu_choice : Type := EditExisting | CreateNew | Cancel.

(** [setup_ssh_config()], lines 58-139. *)
Definition setup_ssh_config : M (gmap string value) :=
  existing_config <- load_config ;;
  if nonempty existing_config then
    print "SSH Configuration already exists!" ;;
    print "Current configuration:" ;;
    print_items (map_to_list existing_config) ;;
    print (newline ++ "Options:") ;;
    print "1. Edit existing configuration" ;;
    print "2. Create new configuration (overwrite)" ;;
    print "3. Cancel" ;;
    choice <- ask "Choose option (1-3): "
                (fun s => if String.eqb s "1" then Some EditExisting
                          else if String.eqb s "2" then Some CreateNew
                          else if String.eqb s "3" then Some Cancel
                          else None)
                "Please enter 1, 2, or 3." ;;
    match choice with
    | EditExisting => edit_ssh_config existing_config
    | CreateNew =>
        print (newline ++ "Creating new configuration...") ;;
        create_ssh_config
    | Cancel =>
        print "Setup cancelled." ;;
        ret ∅
    end
  else create_ssh_config.

(** ** Vocabulary of the statements *)

(** [w] after the events [evs], nothing else changed. *)
Definition emits (evs : list event) (w : world) : world :=
  World (fs w) (unreadable w) (unwritable w) (stdin w) (trace w ++ evs)
        (spawn w) (home w).

(** A child process that is a file copy: its command is [scp]. *)
Definition is_copy (ev : event) : bool :=
  match ev with
  | Ran args _ => bool_decide (head args = Some (VStr "scp"))
  | _ => false
  end.

Definition copies (evs : list event) : list event := List.filter is_copy evs.

(** The source operand of a copy command: the last argument but one. *)
Definition source_of (args : list value) : option value := rev args !! 1%nat.

(** [ev] is a copy of [file_path] that exited with status 0. *)
Definition copy_ok (file_path : string) (ev : event) : Prop :=
  match ev with
  | Ran args (Exited rc _ _) => rc = 0 /\ source_of args = Some (VStr file_path)
  | _ => False
  end.

(** What [push_files] makes of the outcome of a copy. *)
Definition copy_passes (res : outcome) : bool :=
  match res with
  | Exited rc _ _ => rc =? 0
  | Raised _ => false
  end.

(** What the probe makes of the outcome of its remote command. *)
Definition probe_passes (res : outcome) : bool :=
  match res with
  | Exited rc out _ => (rc =? 0) && contains MARKER out
  | Raised _ => false
  end.



(** [push_files] starts with [ensure_remote_directory] on the record's
    remote directory, every copy comes after it, and when it returns false
    [push_files] returns false and no copy is started. *)
Definition ensure_first_claim (files : list string) (config : gmap string value)
    (verbose : bool) (w : world) : Prop :=
  exists remote_dir b evs_e r evs_c,
    config !! "remote_dir" = Some remote_dir /\
    ensure_remote_directory config remote_dir w = (Ok b, emits evs_e w) /\
    push_files files config verbose w = (r, emits (evs_e ++ evs_c) w) /\
    copies evs_e = [] /\
    (b = false -> r = Ok false /\ copies evs_c = []).




(** An answer that leaves a prompt of the edit flow blank. *)
Definition blank (answer : string) : Prop := strip answer = "".

(** [w'] comes from [w] by talking only: prompts, printed lines and log
    entries; no file is written and no child process is started. *)
Definition chats (w w' : world) : Prop :=
  fs w' = fs w /\ unwritable w' = unwritable w /\
  exists evs, trace w' = (trace w ++ evs)%list /\ List.filter is_run evs = [].

Definition quiet {A} (m : M A) : Prop := forall w, chats w (m w).2.

(** The probe's command ran and passed, or ran and did not pass. *)
Definition probe_succeeded (evs : list event) : Prop :=
  exists args res, Ran args res ∈ evs /\ probe_passes res = true.

Definition probe_failed (evs : list event) : Prop :=
  exists args res, Ran args res ∈ evs /\ probe_passes res = false.

(** A flow writes only after a probe that succeeded, hands back a record
    only after a probe that succeeded, and after a probe whose command
    did not pass it returns the empty record and has written nothing.
    [evs] are the events of the flow. *)
Definition writes_after_probe (flow : M (gmap string value)) (w : world) : Prop :=
  exists (r : result (gmap string value)) (w' : world) (evs : list event),
    flow w = (r, w') /\ trace w' = (trace w ++ evs)%list /\
    (fs w' <> fs w -> probe_succeeded evs) /\
    (forall config, r = Ok config -> config <> ∅ -> probe_succeeded evs) /\
    (probe_failed evs -> r = Ok ∅ /\ fs w' = fs w).

(** The same for a flow that goes from its prompts to the probe, and what
    the flow does when the probe of the record of the prompts returns
    false, for whatever reason: it returns the empty record and has
    written nothing. *)
Definition persist_claim (prompts flow : M (gmap string value)) (w : world) : Prop :=
  writes_after_probe flow w /\
  forall config w1 w2,
    prompts w = (Ok config, w1) ->
    test_ssh_connection config (emit (Printed (newline ++ "Testing SSH connection...")) w1)
      = (Ok false, w2) ->
    exists w', flow w = (Ok ∅, w') /\ fs w' = fs w.






(** ** Sample data *)

Definition sample_config : gmap string value :=
  <["hostname" := VStr "user@host"]> (<["port" := VInt 22]>
  (<["remote_dir" := VStr "~/work"]> (<["auth_method" := VStr "key"]>
  (<["key_path" := VStr "~/.ssh/id_rsa"]> ∅)))).

Definition sample_home (s : string) : string :=
  match s with
  | String "~" rest => "/home/user" ++ rest
  | _ => s
  end.

(** A host that accepts every command and echoes the marker. *)
Definition friendly (_ : list event) (_ : list string) : outcome :=
  Exited 0 (MARKER ++ newline) "".

(** A host that cannot be reached. *)
Definition unreachable (_ : list event) (_ : list string) : outcome :=
  Exited 255 "" "ssh: connect to host host port 22: Connection refused".

Definition sample_fs : gmap string file :=
  <["a.txt" := NotJson "Expecting value: line 1 column 1 (char 0)"]>
  (<["b.txt" := NotJson "Expecting value: line 1 column 1 (char 0)"]> ∅).

Definition sample_world (lines : list string) (remote : list event -> list string -> outcome)
    : world :=
  World sample_fs ∅ ∅ lines [] remote sample_home.


(** ** The command line *)

(** [for key, value in config.items(): print(...)] of [show_config], lines
    223-227: as in [setup_ssh_config], without the indentation. *)
Fixpoint show_items (items : list (string * value)) : M unit :=
  match items with
  | [] => ret tt
  | (key, value) :: rest =>
      (if String.eqb key "password" then
         print (key ++ ": " ++
                (if truthy value then repeat_str "*" (String.length (str value)) else "None"))
       else print (key ++ ": " ++ str value)) ;;
      show_items rest
  end.

(** [show_config()], lines 217-230. *)
Definition show_config : M unit :=
  config <- load_config ;;
  if nonempty config then
    print "Current SSH Configuration:" ;;
    print (repeat_str "=" 30) ;;
    show_items (map_to_list config)
  else
    print "No SSH configuration found." ;;
    print "Run with --setup to create configuration.".

(** What [get_all_non_hidden_files] asks of the operating system: the
    working directory, the names in a directory, and whether a path is a
    regular file. *)
Record directory : Type := Directory {
  getcwd : result string;
  listdir : string -> result (list string);
  isfile : string -> bool
}.

(** A call that returns or raises without touching the world. *)
Definition lift {A} (r : result A) : M A := fun w => (r, w).

(** [s.endswith(suffix)]. *)
Definition endswith (s suffix : string) : bool :=
  String.prefix (String.rev suffix) (String.rev s).

(** [os.path.join(a, b)] on POSIX. *)
Definition path_join (a b : string) : string :=
  if String.prefix "/" b then b
  else if String.eqb a "" || endswith a "/" then a ++ b
  else a ++ "/" ++ b.

(** [item.startswith('.')]. *)
Definition hidden (item : string) : bool := String.prefix "." item.

(** The [for] loop of [get_all_non_hidden_files], lines 355-359, with
    [files] the list built so far. *)
Fixpoint scan_items (dir : directory) (current_dir : string) (items files : list string)
    : list string :=
  match items with
  | [] => files
  | item :: rest =>
      let item_path := path_join current_dir item in
      scan_items dir current_dir rest
        (if negb (hidden item) && isfile dir item_path then files ++ [item] else files)
  end.

(** [get_all_non_hidden_files()], lines 349-369. *)
Definition get_all_non_hidden_files (dir : directory) : M (list string) :=
  let files : list string := [] in
  current_dir <- lift (getcwd dir) ;;
  try_except
    (items <- lift (listdir dir current_dir) ;;
     let files := scan_items dir current_dir items files in
     (if bool_decide (files = []) then
        logging WARNING "No non-hidden files found in current directory."
      else
        logging INFO ("Found " ++ pretty (length files) ++ " non-hidden files to push.")) ;;
     ret files)
    (fun e =>
       logging ERROR ("Error scanning directory: " ++ str_exn e) ;;
       ret []).

(** What [parser.parse_args()] hands to [main], lines 390-408. *)
Record arguments : Type := Args {
  arg_files : list string;
  arg_setup : bool;
  arg_edit : bool;
  arg_all : bool;
  arg_list : bool;
  arg_test : bool;
  arg_config : bool;
  arg_verbose : bool
}.

(** [main()] from line 410 on, with the parsed arguments, the help text of
    the parser and the working directory given; the result is the exit
    code.  [setup_logging] sets the level and the handler of the root
    logger; the trace records every logging call whatever the level, so
    it has nothing to do here. *)
Definition main (help : string) (dir : directory) (args : arguments) : M Z :=
  config <- load_config ;;
  if arg_setup args then
    made <- setup_ssh_config ;;
    if nonempty made then ret 0 else ret 1
  else if arg_edit args then
    config <- load_config ;;
    if negb (nonempty config) then
      logging ERROR "No SSH configuration found. Run --setup first." ;;
      ret 1
    else
      edited <- edit_ssh_config config ;;
      if nonempty edited then ret 0 else ret 1
  else if arg_config args then
    show_config ;;
    ret 0
  else if arg_test args then
    if negb (nonempty config) then
      logging ERROR "No SSH configuration found. Run --setup first." ;;
      ret 1
    else
      reachable <- test_ssh_connection config ;;
      if reachable then
        print "✓ SSH connection successful!" ;;
        ret 0
      else
        print "✗ SSH connection failed." ;;
        ret 1
  else if arg_list args then
    listed <- list_remote_files config ;;
    if listed then ret 0 else ret 1
  else if arg_all args then
    files_to_push <- get_all_non_hidden_files dir ;;
    if negb (bool_decide (files_to_push = [])) then
      pushed <- push_files files_to_push config (arg_verbose args) ;;
      if pushed then ret 0 else ret 1
    else ret 1
  else if negb (bool_decide (arg_files args = [])) then
    pushed <- push_files (arg_files args) config (arg_verbose args) ;;
    if pushed then ret 0 else ret 1
  else
    print help ;;
    ret 0.

(** ** Vocabulary of the further statements *)

(** The record [load_config] finds in [w]: the content of the
    configuration file when it is there, readable and a JSON object. *)
Definition stored_config (w : world) : gmap string value :=
  if bool_decide (CONFIG_FILE ∈ unreadable w) then ∅
  else match fs w !! CONFIG_FILE with
       | Some (Json c) => c
       | _ => ∅
       end.

(** The path a copy command copies. *)
Definition copy_source (ev : event) : option value :=
  match ev with
  | Ran args _ => source_of args
  | _ => None
  end.

(** A copy that exited with status 0. *)
Definition passed (ev : event) : bool :=
  match ev with
  | Ran _ res => copy_passes res
  | _ => false
  end.

(** The tally line of [push_files], line 290. *)
Definition tally (success_count total_files : nat) : string :=
  "Push complete: " ++ pretty success_count ++ "/" ++ pretty total_files
  ++ " files transferred successfully".

(** The key path of the record, when there is one, is a string: what
    [os.path.expanduser] needs. *)
Definition key_path_is_str (config : gmap string value) : Prop :=
  forall v, config !! "key_path" = Some v -> exists s, v = VStr s.

(** What the prompt loops print for the answers they reject. *)
Definition complaints (prompt complaint : string) (rejected : list string) : list event :=
  List.concat (List.map (fun _ => [Prompted prompt; Printed complaint]) rejected).

(** The answers the menu of [setup_ssh_config] rejects. *)
Definition not_on_menu (answer : string) : Prop :=
  strip answer <> "1" /\ strip answer <> "2" /\ strip answer <> "3".

(** [args] is the remote shell command [command] for the host and the
    port of the record (22 when it has none), with or without a key
    file. *)
Definition remote_command (config : gmap string value) (command : string)
    (args : list value) : Prop :=
  exists hostname pre,
    config !! "hostname" = Some hostname /\
    args = (VStr "ssh" :: pre ++
            [VStr "-p"; VStr (str (get config "port" (VInt 22))); hostname;
             VStr command])%list /\
    (pre = [] \/ exists k, pre = [VStr "-i"; VStr k]).

(** What [get_all_non_hidden_files] keeps of a listing of [current_dir]:
    the names that do not start with a dot and are regular files. *)
Definition pushable (dir : directory) (current_dir item : string) : bool :=
  negb (hidden item) && isfile dir (path_join current_dir item).

(** The line [show_config] prints for a field. *)
Definition shown (key : string) (value : value) : string :=
  if String.eqb key "password" then
    key ++ ": " ++ (if truthy value then repeat_str "*" (String.length (str value))
                    else "None")
  else key ++ ": " ++ str value.


(** [args] is the copy command of [file_path] to the directory
    [remote_dir] of [hostname] through [port]: with a key file only when
    the record asks for a key and the file is there, with [-v] exactly
    when [verbose]. *)
Definition copy_command (config : gmap string value) (verbose : bool)
    (hostname port remote_dir : value) (w : world) (file_path : string)
    (args : list value) : Prop :=
  exists pre,
    args = ([VStr "scp"; VStr "-P"; VStr (str port)] ++ pre ++
            (if verbose then [VStr "-v"] else []) ++
            [VStr file_path; VStr (str hostname ++ ":" ++ str remote_dir ++ "/")])%list /\
    (pre = [] \/
     exists k, pre = [VStr "-i"; VStr k] /\ is_Some (fs w !! k) /\
               config !! "auth_method" = Some (VStr "key")).

(** A working directory for the examples. *)
Definition sample_directory : directory :=
  Directory (Ok "/home/user/project")
    (fun _ => Ok ["a.txt"; ".ssh_push_config.json"; "build"; "b.txt"; ".git"])
    (fun path => negb (String.eqb path "/home/user/project/build")).

(** * Properties *)

(** ** Worlds and events *)

Section WorldFacts.
Implicit Types (w : world) (ev : event) (evs : list event).

Lemma emits_nil w : emits [] w = w.
Proof. destruct w; unfold emits; simpl. by rewrite app_nil_r. Qed.

Lemma emit_emits ev evs w : emit ev (emits evs w) = emits (evs ++ [ev]) w.
Proof. unfold emit, emits; simpl. by rewrite app_assoc. Qed.

Lemma emits_emits evs1 evs2 w : emits evs2 (emits evs1 w) = emits (evs1 ++ evs2) w.
Proof. unfold emits; simpl. by rewrite app_assoc. Qed.

Lemma emit_is_emits ev w : emit ev w = emits [ev] w.
Proof. reflexivity. Qed.

Lemma emits_inj evs1 evs2 w : emits evs1 w = emits evs2 w -> evs1 = evs2.
Proof.
  unfold emits. intros H. injection H as H. by apply app_inv_head in H.
Qed.

Lemma runs_emits evs w : runs (emits evs w) = (runs w ++ List.filter is_run evs)%list.
Proof. unfold runs, emits; simpl. apply List.filter_app. Qed.

Lemma copies_app evs1 evs2 : copies (evs1 ++ evs2) = (copies evs1 ++ copies evs2)%list.
Proof. apply List.filter_app. Qed.

Lemma copies_are_runs evs : List.filter is_run evs = [] -> copies evs = [].
Proof.
  induction evs as [|ev evs IH]; [done|]. simpl.
  destruct ev; simpl; done.
Qed.
End WorldFacts.

(** Unfolds the monad and the library calls in the goal. *)
Ltac py_simpl :=
  cbv beta iota zeta delta
    [bind ret raise try_except print logging path_exists getitem expanduser in_].

(** Brings a world built with [emit] and [emits] to the form [emits evs w]. *)
Ltac world_norm :=
  repeat (progress change (emit ?ev ?w) with (emits [ev] w));
  rewrite ?emits_emits; cbn [app].

(** The substring test finds exactly the substrings. *)
Lemma prefix_spec (p s : string) :
  String.prefix p s = true <-> exists post, s = p ++ post.
Proof.
  revert s. induction p as [|a p IH]; intros s; simpl.
  - split; [by exists s|by destruct s].
  - destruct s as [|b s]; simpl.
    + split; [done|]. intros [post H]. discriminate H.
    + destruct (Ascii.ascii_dec a b) as [->|Hne].
      * rewrite IH. split; intros [post H]; exists post; [by rewrite H|by injection H].
      * split; [done|]. intros [post H]. injection H as H1 H2. done.
Qed.

Lemma contains_spec (needle hay : string) :
  contains needle hay = true <-> exists pre post, hay = pre ++ needle ++ post.
Proof.
  induction hay as [|a hay IH]; cbn [contains].
  - rewrite orb_false_r, prefix_spec. split.
    + intros [post H]. by exists "", post.
    + intros (pre & post & H). destruct pre; simpl in H; [eauto|discriminate H].
  - rewrite orb_true_iff, prefix_spec, IH. split.
    + intros [[post H]|(pre & post & H)].
      * by exists "", post.
      * exists (String a pre), post. simpl. by rewrite H.
    + intros (pre & post & H). destruct pre as [|b pre]; simpl in H.
      * left. eauto.
      * right. injection H as _ H. eauto.
Qed.

(** ** Remote commands *)

Lemma ssh_command_pure (config : gmap string value) port hostname command w :
  exists r, ssh_command config port hostname command w = (r, w) /\
    forall args, r = Ok args -> head args = Some (VStr "ssh").
Proof.
  assert (Hfin : forall r, (forall args, r = Ok args -> head args = Some (VStr "ssh")) ->
     exists r', (r, w) = (r', w) /\ forall args, r' = Ok args -> head args = Some (VStr "ssh")) by eauto.
  unfold ssh_command. py_simpl.
  destruct (eq_str _ _ && truthy _); [|apply Hfin; by intros ? [= <-]].
  destruct (config !! "key_path") as [key|]; [|apply Hfin; by intros ? [= <-]].
  destruct key; try (apply Hfin; by intros ? [= <-]).
  case_bool_decide; apply Hfin; by intros ? [= <-].
Qed.

Lemma subprocess_run_spec args capture w :
  subprocess_run args capture w =
    (match child_outcome args w with
     | Exited rc out err => Ok (Completed rc (if capture then VStr out else VNull)
                                             (if capture then VStr err else VNull))
     | Raised e => Raise e
     end, emits [Ran args (child_outcome args w)] w).
Proof.
  unfold subprocess_run. by destruct (child_outcome args w).
Qed.

Lemma test_ssh_connection_spec config w :
  exists b evs, test_ssh_connection config w = (Ok b, emits evs w) /\
    (b = false /\ List.filter is_run evs = [] \/
     exists args res, List.filter is_run evs = [Ran args res] /\
       head args = Some (VStr "ssh") /\ b = probe_passes res).
Proof.
  unfold test_ssh_connection.
  cbv beta iota zeta delta [bind try_except getitem].
  destruct (config !! "hostname") as [hostname|]; py_simpl.
  2: { eexists _, [_]. split; [reflexivity|]. by left. }
  destruct (ssh_command_pure config (get config "port" (VInt 22)) hostname
              ("echo " ++ dquote ++ MARKER ++ dquote) w) as (r & -> & Hr).
  destruct r as [args|e].
  2: { eexists _, [_]. split; [reflexivity|]. by left. }
  rewrite subprocess_run_spec.
  destruct (child_outcome args w) as [rc out err|e]; cbn [returncode stdout].
  - destruct (rc =? 0) eqn:Hrc; py_simpl.
    + eexists _, [_]. split; [reflexivity|]. right. eexists _, _.
      split; [reflexivity|]. split; [eauto|]. unfold probe_passes. by rewrite Hrc.
    + eexists _, [_]. split; [reflexivity|]. right. eexists _, _.
      split; [reflexivity|]. split; [eauto|]. unfold probe_passes. by rewrite Hrc.
  - rewrite emit_emits. eexists _, _. split; [reflexivity|]. right. eexists _, _.
    split; [reflexivity|]. split; [eauto|]. done.
Qed.

Lemma ensure_remote_directory_spec config remote_dir w :
  exists b evs, ensure_remote_directory config remote_dir w = (Ok b, emits evs w) /\
    copies evs = [].
Proof.
  unfold ensure_remote_directory.
  cbv beta iota zeta delta [bind try_except getitem].
  destruct (config !! "hostname") as [hostname|]; py_simpl.
  2: { by eexists _, [_]. }
  destruct (ssh_command_pure config (get config "port" (VInt 22)) hostname
              ("mkdir -p " ++ str remote_dir) w) as (r & -> & Hr).
  destruct r as [args|e].
  2: { by eexists _, [_]. }
  rewrite subprocess_run_spec. specialize (Hr _ eq_refl).
  assert (copies [Ran args (child_outcome args w)] = []) as Hc.
  { unfold copies. cbn [List.filter is_copy]. rewrite Hr. by rewrite bool_decide_eq_false_2. }
  destruct (child_outcome args w) as [rc out err|e]; cbn [returncode].
  - by eexists _, [_].
  - rewrite emit_emits. eexists _, _. split; [reflexivity|].
    rewrite copies_app, Hc. done.
Qed.

Lemma list_remote_files_total config w :
  exists b w', list_remote_files config w = (Ok b, w').
Proof.
  unfold list_remote_files. destruct (negb (nonempty config)); py_simpl; [by eexists _, _|].
  destruct (config !! "hostname") as [hostname|]; [|by eexists _, _].
  destruct (config !! "remote_dir") as [remote_dir|]; [|by eexists _, _].
  destruct (ssh_command_pure config (get config "port" (VInt 22)) hostname
              ("ls -la " ++ str remote_dir) w) as (r & -> & _).
  destruct r as [args|e]; [|by eexists _, _].
  rewrite subprocess_run_spec.
  destruct (child_outcome args w) as [rc out err|e]; cbn [returncode]; [|by eexists _, _].
  destruct (rc =? 0); by eexists _, _.
Qed.

Lemma scp_command_pure config verbose hostname port remote_dir file_path w :
  exists r, scp_command config verbose hostname port remote_dir file_path w = (r, w) /\
    forall args, r = Ok args ->
      head args = Some (VStr "scp") /\ source_of args = Some (VStr file_path).
Proof.
  assert (Hfin : forall pre,
    head pre = Some (VStr "scp") ->
    let args := ((if verbose then pre ++ [VStr "-v"] else pre) ++
       [VStr file_path; VStr (str hostname ++ ":" ++ str remote_dir ++ "/")])%list in
    head args = Some (VStr "scp") /\ source_of args = Some (VStr file_path)).
  { intros pre Hpre args. subst args. split.
    - destruct pre; [done|]. by destruct verbose.
    - unfold source_of. by rewrite rev_app_distr. }
  unfold scp_command. py_simpl.
  destruct (eq_str _ _ && truthy _).
  2: { eexists. split; [reflexivity|]. intros ? [= <-].
       by apply (Hfin [VStr "scp"; VStr "-P"; VStr (str port)]). }
  destruct (config !! "key_path") as [key|]; [|by eexists].
  destruct key as [| | |s]; try by eexists.
  case_bool_decide; (eexists; split; [reflexivity|]; intros ? [= <-]).
  - by apply (Hfin [VStr "scp"; VStr "-P"; VStr (str port); VStr "-i"; VStr (home w s)]).
  - by apply (Hfin [VStr "scp"; VStr "-P"; VStr (str port)]).
Qed.

Lemma copies_cons_copy args res evs :
  head args = Some (VStr "scp") -> copies (Ran args res :: evs) = Ran args res :: copies evs.
Proof.
  intros H. unfold copies. cbn [List.filter is_copy]. by rewrite H, bool_decide_eq_true_2.
Qed.

Lemma push_one_spec config verbose hostname port remote_dir count file_path w :
  exists count' evs,
    push_one config verbose hostname port remote_dir count file_path w
      = (Ok count', emits evs w) /\
    (copies evs = [] /\ count' = count \/
     exists args res, copies evs = [Ran args res] /\
       is_Some (fs w !! file_path) /\
       source_of args = Some (VStr file_path) /\
       count' = if copy_passes res then S count else count).
Proof.
  unfold push_one.
  cbv beta iota zeta delta [bind path_exists].
  case_bool_decide as Hex; cbn [negb]; py_simpl.
  2: { eexists _, [_]. split; [reflexivity|]. by left. }
  destruct (scp_command_pure config verbose hostname port remote_dir file_path w)
    as (r & -> & Hr).
  destruct r as [args|e].
  2: { eexists _, [_]. split; [reflexivity|]. by left. }
  destruct (Hr _ eq_refl) as [Hhd Hsrc].
  destruct verbose; cbn [negb]; rewrite subprocess_run_spec;
    match goal with |- context [child_outcome args ?w0] =>
      destruct (child_outcome args w0) as [rc out err|e] eqn:Hres end;
    cbn [returncode]; try destruct (rc =? 0) eqn:Hrc;
    world_norm; (eexists _, _; split; [reflexivity|]; right; eexists args, _);
    (split; [cbn [copies List.filter is_copy]; by rewrite bool_decide_eq_true_2|]);
    cbn [copy_passes]; by rewrite ?Hrc.
Qed.

Lemma copy_ok_passes file_path args res :
  source_of args = Some (VStr file_path) ->
  copy_ok file_path (Ran args res) <-> copy_passes res = true.
Proof.
  intros Hsrc. destruct res as [rc out err|e]; simpl; [|done].
  rewrite Z.eqb_eq. tauto.
Qed.

Lemma push_loop_spec config verbose hostname port remote_dir files :
  forall count w, exists count' evs,
    push_loop config verbose hostname port remote_dir files count w
      = (Ok count', emits evs w) /\
    (count <= count' <= count + length files)%nat /\
    (length (copies evs) <= length files)%nat /\
    (count' = (count + length files)%nat <->
       Forall (fun p => is_Some (fs w !! p)) files /\ Forall2 copy_ok files (copies evs)).
Proof.
  induction files as [|file_path files IH]; intros count w.
  - exists count, []. rewrite emits_nil. cbn. split; [done|]. split; [lia|]. split; [lia|].
    split; [by split; constructor|lia].
  - cbn [push_loop]. unfold bind at 1.
    destruct (push_one_spec config verbose hostname port remote_dir count file_path w)
      as (c1 & evs1 & -> & H1).
    destruct (IH c1 (emits evs1 w)) as (c2 & evs2 & -> & Hle & Hlen & Hiff).
    rewrite emits_emits. exists c2, (evs1 ++ evs2)%list. split; [done|].
    rewrite copies_app, length_app. cbn [length fs emits] in *.
    rewrite Forall_cons.
    destruct H1 as [[Hc ->]|(args & res & Hc & Hex & Hsrc & ->)]; rewrite Hc; cbn [app length].
    + split; [lia|]. split; [lia|]. split; [lia|].
      intros [_ HF]. apply Forall2_length in HF. cbn in HF. lia.
    + pose proof (copy_ok_passes file_path args res Hsrc) as Hok.
      destruct (copy_passes res).
      * split; [lia|]. split; [lia|]. rewrite Forall2_cons.
        replace (c2 = (count + S (length files))%nat) with (c2 = (S count + length files)%nat)
          by (f_equal; lia).
        rewrite Hiff. tauto.
      * split; [lia|]. split; [lia|]. split; [lia|].
        rewrite Forall2_cons. intros (_ & Hbad & _). apply Hok in Hbad. done.
Qed.

(** The five ways [push_files] can go. *)
Lemma push_files_cases files config verbose w :
  exists r evs, push_files files config verbose w = (r, emits evs w) /\
    ((config = ∅ \/ files = []) /\ r = Ok false /\ List.filter is_run evs = [] \/
     (config <> ∅ /\ files <> [] /\
      (config !! "hostname" = None \/ config !! "remote_dir" = None) /\
      evs = [] /\ exists key, r = Raise (KeyError key)) \/
     (exists hostname remote_dir evs_e,
        config <> ∅ /\ files <> [] /\
        config !! "hostname" = Some hostname /\ config !! "remote_dir" = Some remote_dir /\
        ensure_remote_directory config remote_dir w = (Ok false, emits evs_e w) /\
        r = Ok false /\ copies evs = []) \/
     (exists hostname remote_dir evs_e evs_l count,
        config <> ∅ /\ files <> [] /\
        config !! "hostname" = Some hostname /\ config !! "remote_dir" = Some remote_dir /\
        ensure_remote_directory config remote_dir w = (Ok true, emits evs_e w) /\
        push_loop config verbose hostname (get config "port" (VInt 22)) remote_dir
          files 0%nat (emits evs_e w) = (Ok count, emits evs_l (emits evs_e w)) /\
        r = Ok (bool_decide (count = length files)) /\
        copies evs = copies evs_l /\
        (count = length files <->
           Forall (fun p => is_Some (fs w !! p)) files /\
           Forall2 copy_ok files (copies evs_l)))).
Proof.
  unfold push_files, nonempty.
  case_bool_decide as Hcfg; cbn [negb].
  2: { eexists _, [_]. split; [reflexivity|]. left. auto. }
  case_bool_decide as Hfiles.
  { eexists _, [_]. split; [reflexivity|]. left. auto. }
  cbv beta iota zeta delta [bind getitem].
  destruct (config !! "hostname") as [hostname|] eqn:Hh; py_simpl.
  2: { exists (Raise (KeyError "hostname")), []. rewrite emits_nil. split; [done|].
       right; left. eauto 10. }
  destruct (config !! "remote_dir") as [remote_dir|] eqn:Hrd; py_simpl.
  2: { exists (Raise (KeyError "remote_dir")), []. rewrite emits_nil. split; [done|].
       right; left. eauto 10. }
  destruct (ensure_remote_directory_spec config remote_dir w) as (b & evs_e & He & Hce).
  rewrite He. destruct b; cbn [negb].
  - destruct (push_loop_spec config verbose hostname (get config "port" (VInt 22))
                remote_dir files 0%nat (emits evs_e w))
      as (count & evs_l & Hl & _ & _ & Hiff).
    rewrite Hl. world_norm. eexists _, _. split; [reflexivity|].
    do 3 right. exists hostname, remote_dir, evs_e, evs_l, count.
    rewrite !copies_app, Hce. cbn [app]. rewrite app_nil_r.
    cbn [fs emits] in Hiff. done.
  - world_norm. eexists _, _. split; [reflexivity|].
    right; right; left. exists hostname, remote_dir, evs_e.
    rewrite copies_app, Hce. done.
Qed.

(** ** Pushing files *)





(** The scenario of the specification: both files are there, both copies
    succeed, the result is true and the tally reads 2/2. *)
Example push_two_files :
  let '(r, w) := push_files ["a.txt"; "b.txt"] sample_config false (sample_world [] friendly) in
  r = Ok true /\
  last (trace w) = Some (Logged INFO "Push complete: 2/2 files transferred successfully").
Proof. vm_compute. split; reflexivity. Qed.

(** One missing file among files that are copied makes the result false. *)
Example push_one_missing :
  (push_files ["a.txt"; "c.txt"; "b.txt"] sample_config false (sample_world [] friendly)).1
  = Ok false.
Proof. vm_compute. reflexivity. Qed.

(** C2: [push_files] returns false at once, having only logged an error,
    when the record is empty (whatever the paths) and when the list of
    paths is empty (whatever the record); no child process is started. *)
Theorem push_rejects files config verbose w :
  push_files files ∅ verbose w
    = (Ok false, emits [Logged ERROR "No SSH configuration found. Run --setup first."] w) /\
  (exists msg, push_files [] config verbose w = (Ok false, emits [Logged ERROR msg] w)) /\
  runs (push_files files ∅ verbose w).2 = runs w /\
  runs (push_files [] config verbose w).2 = runs w.
Proof.
  assert (H1 : push_files files ∅ verbose w
    = (Ok false, emits [Logged ERROR "No SSH configuration found. Run --setup first."] w)).
  { unfold push_files, nonempty. by rewrite bool_decide_eq_false_2 by (by intros []). }
  assert (H2 : exists msg, push_files [] config verbose w
                           = (Ok false, emits [Logged ERROR msg] w)).
  { unfold push_files. destruct (negb (nonempty config)); by eexists. }
  split; [done|]. split; [done|]. destruct H2 as [msg H2]. rewrite H1, H2. cbn [snd].
  rewrite !runs_emits. cbn. by rewrite app_nil_r.
Qed.

(** ** The connection probe *)

Lemma probe_passes_spec res :
  probe_passes res = true <->
  exists out err, res = Exited 0 out err /\ exists pre post, out = pre ++ MARKER ++ post.
Proof.
  destruct res as [rc out err|e]; cbn [probe_passes].
  - rewrite andb_true_iff, Z.eqb_eq, contains_spec. split.
    + intros [-> H]. eauto.
    + intros (out' & err' & [= -> -> ->] & H). done.
  - split; [done|]. by intros (out & err & [=] & _).
Qed.

(** C3: the probe always returns a Boolean, whatever the record and the
    remote host do.  It is false when the remote command exits with a
    non-zero status, when the marker is not in its output, and when running
    it raises an exception; it is true only when the command exited with
    status 0 and the marker is part of its output. *)
Theorem probe_result config w :
  exists b evs, test_ssh_connection config w = (Ok b, emits evs w) /\
    (forall args res, Ran args res ∈ evs -> b = probe_passes res) /\
    (forall args rc out err, Ran args (Exited rc out err) ∈ evs ->
       rc <> 0 \/ contains MARKER out = false -> b = false) /\
    (forall args e, Ran args (Raised e) ∈ evs -> b = false) /\
    (b = true -> exists args out err,
       Ran args (Exited 0 out err) ∈ evs /\ exists pre post, out = pre ++ MARKER ++ post).
Proof.
  destruct (test_ssh_connection_spec config w) as (b & evs & Heq & Hevs).
  exists b, evs. split; [done|].
  assert (Hall : forall args res, Ran args res ∈ evs -> b = probe_passes res).
  { intros args res Hin.
    assert (Ran args res ∈ List.filter is_run evs) as Hin'.
    { apply list_elem_of_In, List.filter_In. by rewrite <- list_elem_of_In. }
    destruct Hevs as [[_ Hnone]|(args' & res' & Hone & _ & ->)].
    - rewrite Hnone in Hin'. by apply elem_of_nil in Hin'.
    - rewrite Hone in Hin'. apply list_elem_of_singleton in Hin'. congruence. }
  split; [done|]. split; [|split].
  - intros args rc out err Hin Hbad. rewrite (Hall _ _ Hin). cbn [probe_passes].
    destruct Hbad as [Hrc| ->]; [|by rewrite andb_false_r].
    apply Z.eqb_neq in Hrc. by rewrite Hrc.
  - intros args e Hin. by rewrite (Hall _ _ Hin).
  - intros ->. destruct Hevs as [[? _]|(args & res & Hone & _ & Hpass)]; [done|].
    symmetry in Hpass. apply probe_passes_spec in Hpass as (out & err & -> & Hsub).
    exists args, out, err. split; [|done].
    assert (Ran args (Exited 0 out err) ∈ List.filter is_run evs) as Hin
      by (rewrite Hone; apply list_elem_of_singleton; done).
    apply list_elem_of_In, List.filter_In in Hin as [Hin _]. by apply list_elem_of_In.
Qed.

(** The probe at work: an unreachable host, a host that answers without
    the marker, a reachable host. *)
Example probe_examples :
  (test_ssh_connection sample_config (sample_world [] unreachable)).1 = Ok false /\
  (test_ssh_connection sample_config
     (sample_world [] (fun _ _ => Exited 0 "Welcome" ""))).1 = Ok false /\
  (test_ssh_connection sample_config
     (sample_world [] (fun _ _ => Raised (TimeoutExpired "timed out after 10 seconds")))).1
    = Ok false /\
  (test_ssh_connection sample_config (sample_world [] friendly)).1 = Ok true.
Proof. vm_compute. repeat split; reflexivity. Qed.

(** ** The remote directory comes first *)

(** C6, amended: for every record that has [hostname] and [remote_dir] and
    every non-empty list of paths, [push_files] first runs
    [ensure_remote_directory] on the record's remote directory, every copy
    comes after it, and when it returns false [push_files] returns false
    without starting any copy. *)
Theorem push_ensures_first files config verbose w :
  files <> [] ->
  is_Some (config !! "hostname") ->
  is_Some (config !! "remote_dir") ->
  ensure_first_claim files config verbose w.
Proof.
  intros Hne [h Hh] [rd Hrd]. unfold ensure_first_claim.
  destruct (ensure_remote_directory_spec config rd w) as (b & evs_e & He & Hce).
  assert (Hcfg : nonempty config = true).
  { apply bool_decide_eq_true_2. intros ->. by rewrite lookup_empty in Hh. }
  exists rd, b, evs_e.
  unfold push_files. rewrite Hcfg, bool_decide_eq_false_2 by done. cbn [negb].
  cbv beta iota zeta delta [bind getitem]. rewrite Hh, Hrd. py_simpl. rewrite He.
  destruct b; cbn [negb].
  - destruct (push_loop_spec config verbose h (get config "port" (VInt 22))
                rd files 0%nat (emits evs_e w)) as (count & evs_l & -> & _).
    world_norm. eexists _, _. by repeat split.
  - world_norm. eexists _, _. by repeat split.
Qed.

Lemma push_ensures_first_witness :
  ensure_first_claim ["a.txt"] sample_config false (sample_world [] unreachable).
Proof.
  apply push_ensures_first.
  - intros H. discriminate H.
  - vm_compute. eauto.
  - vm_compute. eauto.
Defined.

(** C6 as it is stated, for every non-empty record, fails on a record
    without [hostname] and [remote_dir]: [push_files] raises [KeyError]
    before it gets to the remote directory. *)
Lemma ensure_first_claim_fails_without_fields :
  push_files ["a.txt"] {["port" := VInt 22]} false (sample_world [] friendly)
    = (Raise (KeyError "hostname"), sample_world [] friendly) /\
  ~ ensure_first_claim ["a.txt"] {["port" := VInt 22]} false (sample_world [] friendly).
Proof.
  split; [by vm_compute|].
  intros (rd & b & evs_e & r & evs_c & Hrd & _). vm_compute in Hrd. discriminate Hrd.
Qed.

(** ** Records without the fields [push_files] indexes *)

(** C10: for a non-empty record and a non-empty list of paths,
    [push_files] returns a Boolean exactly when the record has both
    [hostname] and [remote_dir], and raises [KeyError], which nothing
    catches, exactly when one of them is missing; the probe and the remote
    lister return a Boolean for every record. *)
Theorem push_total_iff_fields files config verbose w :
  config <> ∅ -> files <> [] ->
  ((exists b w', push_files files config verbose w = (Ok b, w')) <->
     is_Some (config !! "hostname") /\ is_Some (config !! "remote_dir")) /\
  ((exists key, push_files files config verbose w = (Raise (KeyError key), w)) <->
     config !! "hostname" = None \/ config !! "remote_dir" = None) /\
  (exists b w', test_ssh_connection config w = (Ok b, w')) /\
  (exists b w', list_remote_files config w = (Ok b, w')).
Proof.
  intros Hcfg Hne.
  destruct (push_files_cases files config verbose w) as (r & evs & Heq & Hcases).
  rewrite Heq.
  split; [|split; [|split]].
  - destruct Hcases as
      [([?|?] & _)
      |[(_ & _ & Hmiss & -> & key & ->)
      |[(h & rd & evs_e & _ & _ & Hh & Hrd & _ & -> & _)
      |(h & rd & evs_e & evs_l & count & _ & _ & Hh & Hrd & _ & _ & -> & _)]]];
      try done.
    + split; [by intros (b & w' & [=])|].
      intros [[h Hh] [rd Hrd]]. destruct Hmiss; congruence.
    + rewrite Hh, Hrd. split; eauto.
    + rewrite Hh, Hrd. split; eauto.
  - destruct Hcases as
      [([?|?] & _)
      |[(_ & _ & Hmiss & -> & key & ->)
      |[(h & rd & evs_e & _ & _ & Hh & Hrd & _ & -> & _)
      |(h & rd & evs_e & evs_l & count & _ & _ & Hh & Hrd & _ & _ & -> & _)]]];
      try done.
    + rewrite emits_nil. split; eauto.
    + split; [by intros (key & [=])|]. intros [?|?]; congruence.
    + split; [by intros (key & [=])|]. intros [?|?]; congruence.
  - destruct (test_ssh_connection_spec config w) as (b & evs' & -> & _). eauto.
  - apply list_remote_files_total.
Qed.

Lemma push_total_iff_fields_witness :
  push_files ["a.txt"] {["hostname" := VStr "user@host"]} false (sample_world [] friendly)
    = (Raise (KeyError "remote_dir"), sample_world [] friendly) /\
  (list_remote_files {["hostname" := VStr "user@host"]} (sample_world [] friendly)).1
    = Ok false /\
  (exists key, push_files ["a.txt"] {["hostname" := VStr "user@host"]} false
                 (sample_world [] friendly)
               = (Raise (KeyError key), sample_world [] friendly)).
Proof.
  split; [by vm_compute|]. split; [by vm_compute|].
  apply (push_total_iff_fields ["a.txt"] {["hostname" := VStr "user@host"]} false
           (sample_world [] friendly)).
  - intros H. apply (f_equal (fun m => m !! "hostname")) in H. vm_compute in H. discriminate H.
  - intros H. discriminate H.
  - right. by vm_compute.
Defined.

(** ** Talking to the terminal *)

Section Quiet.
Context {A B : Type}.

Lemma chats_refl w : chats w w.
Proof. repeat split. exists []. by rewrite app_nil_r. Qed.

Lemma chats_trans w1 w2 w3 : chats w1 w2 -> chats w2 w3 -> chats w1 w3.
Proof.
  intros (Hfs1 & Hw1 & evs1 & Ht1 & Hr1) (Hfs2 & Hw2 & evs2 & Ht2 & Hr2).
  split; [congruence|]. split; [congruence|].
  exists (evs1 ++ evs2)%list. rewrite Ht2, Ht1, <- app_assoc. split; [done|].
  by rewrite List.filter_app, Hr1, Hr2.
Qed.

Lemma chats_emit w ev : is_run ev = false -> chats w (emit ev w).
Proof. intros H. repeat split. exists [ev]. split; [done|]. cbn. by rewrite H. Qed.

Lemma quiet_ret (a : A) : quiet (ret a).
Proof. intros w. apply chats_refl. Qed.

Lemma quiet_raise e : quiet (@raise A e).
Proof. intros w. apply chats_refl. Qed.

Lemma quiet_bind (m : M A) (k : A -> M B) :
  quiet m -> (forall a, quiet (k a)) -> quiet (bind m k).
Proof.
  intros Hm Hk w. unfold bind. specialize (Hm w).
  destruct (m w) as [[a|e] w1]; cbn [snd] in *; [|done].
  eapply chats_trans; [done|]. apply Hk.
Qed.

Lemma quiet_try_except (m : M A) (h : exn -> M A) :
  quiet m -> (forall e, quiet (h e)) -> quiet (try_except m h).
Proof.
  intros Hm Hh w. unfold try_except. specialize (Hm w).
  destruct (m w) as [[a|e] w1]; cbn [snd] in *; [done|].
  eapply chats_trans; [done|]. apply Hh.
Qed.

Lemma quiet_ask prompt (accept : string -> option A) complaint :
  quiet (ask prompt accept complaint).
Proof.
  intros w. unfold ask.
  assert (forall lines tr, exists evs,
    (ask_lines prompt accept complaint lines tr).2 = (tr ++ evs)%list /\
    List.filter is_run evs = []) as Hlines.
  { induction lines as [|l lines IH]; intros tr; cbn [ask_lines].
    - by exists [Prompted prompt].
    - destruct (accept (strip l)); [by exists [Prompted prompt]|].
      destruct (IH (tr ++ [Prompted prompt; Printed complaint])%list) as (evs & -> & Hevs).
      exists (Prompted prompt :: Printed complaint :: evs). by rewrite <- app_assoc. }
  destruct (Hlines (stdin w) (trace w)) as (evs & Htr & Hevs).
  destruct (ask_lines prompt accept complaint (stdin w) (trace w)) as [[r lines] tr].
  cbn [snd] in *. subst tr. repeat split. by exists evs.
Qed.
End Quiet.

Lemma quiet_print line : quiet (print line).
Proof. intros w. by apply chats_emit. Qed.

Lemma quiet_logging lvl msg : quiet (logging lvl msg).
Proof. intros w. by apply chats_emit. Qed.

Lemma quiet_input prompt : quiet (input prompt).
Proof.
  intros w. unfold input. destruct (stdin w); cbn [snd]; [by apply chats_emit|].
  repeat split. by exists [Prompted prompt].
Qed.

Lemma quiet_getitem config key : quiet (getitem config key).
Proof. unfold getitem. destruct (config !! key); [apply quiet_ret|apply quiet_raise]. Qed.

(** Proves that a computation made of prompts, prints and log entries is
    [quiet]. *)
Ltac quiet_steps :=
  repeat first
    [ apply quiet_ret | apply quiet_raise | apply quiet_print | apply quiet_logging
    | apply quiet_input | apply quiet_ask | apply quiet_getitem
    | apply quiet_bind; [|intros ?]
    | apply quiet_try_except; [|intros ?]
    | match goal with
      | |- quiet (if ?b then _ else _) => destruct b
      | |- quiet (match ?x with _ => _ end) => destruct x
      end ].

Lemma quiet_input_strip prompt : quiet (input_strip prompt).
Proof. unfold input_strip. quiet_steps. Qed.

Lemma quiet_edit_prompts existing_config : quiet (edit_prompts existing_config).
Proof. unfold edit_prompts. repeat (quiet_steps; try apply quiet_input_strip). Qed.

Lemma quiet_create_prompts : quiet create_prompts.
Proof. unfold create_prompts. repeat (quiet_steps; try apply quiet_input_strip). Qed.

Lemma quiet_print_items items : quiet (print_items items).
Proof. induction items as [|[key value] items IH]; cbn [print_items]; quiet_steps. done. Qed.

Lemma quiet_load_config : quiet load_config.
Proof.
  unfold load_config. apply quiet_bind; [intros w; apply chats_refl|]. intros present.
  destruct present; [|apply quiet_ret].
  apply quiet_try_except.
  - intros w. unfold open_json_load. case_bool_decide; [apply chats_refl|].
    destruct (fs w !! CONFIG_FILE) as [[c|msg]|]; apply chats_refl.
  - intros e. quiet_steps.
Qed.

(** ** The configuration file *)



Lemma save_config_writable config w :
  CONFIG_FILE ∉ unwritable w ->
  save_config config w
    = (Ok tt, emit (Logged INFO ("Configuration saved to " ++ CONFIG_FILE))
                (store CONFIG_FILE (Json config) w)).
Proof.
  intros H. unfold save_config, open_json_dump. py_simpl.
  by rewrite bool_decide_eq_false_2.
Qed.

Lemma save_config_unwritable config w :
  CONFIG_FILE ∈ unwritable w ->
  exists text, save_config config w = (Ok tt, emits [Logged ERROR text] w).
Proof.
  intros H. unfold save_config, open_json_dump. py_simpl.
  rewrite bool_decide_eq_true_2 by done. by eexists.
Qed.




(** A malformed file only costs a warning. *)
Example load_malformed :
  let w := World {[CONFIG_FILE := NotJson "Expecting value: line 1 column 1 (char 0)"]}
             ∅ ∅ [] [] friendly sample_home in
  load_config w
  = (Ok ∅, emits [Logged WARNING
                    "Failed to load config file: Expecting value: line 1 column 1 (char 0)"] w).
Proof. vm_compute. reflexivity. Qed.

(** ** Probe, then save *)

Lemma run_in_filter args res evs :
  Ran args res ∈ evs <-> Ran args res ∈ List.filter is_run evs.
Proof.
  rewrite !list_elem_of_In, List.filter_In. cbn [is_run]. tauto.
Qed.

Lemma no_run_not_in args res evs :
  List.filter is_run evs = [] -> ~ Ran args res ∈ evs.
Proof. intros H Hin. apply run_in_filter in Hin. rewrite H in Hin. by apply elem_of_nil in Hin. Qed.

Lemma probe_and_save_outcome config w :
  exists (b : bool) (evs : list event) (w' : world),
    probe_and_save config w = (Ok (if b then config else ∅), w') /\
    trace w' = (trace w ++ evs)%list /\
    (List.filter is_run evs = [] /\ b = false \/
     exists args res, List.filter is_run evs = [Ran args res] /\ b = probe_passes res) /\
    (b = false -> fs w' = fs w) /\
    (b = true -> fs w' = if bool_decide (CONFIG_FILE ∈ unwritable w) then fs w
                         else <[CONFIG_FILE := Json config]> (fs w)).
Proof.
  unfold probe_and_save. cbv beta iota zeta delta [bind print].
  destruct (test_ssh_connection_spec config
              (emit (Printed (newline ++ "Testing SSH connection...")) w))
    as (b & evs & -> & Hevs).
  assert (Hruns : forall pre post, List.filter is_run pre = [] -> List.filter is_run post = [] ->
            List.filter is_run (pre ++ evs ++ post) = [] /\ b = false \/
            exists args res, List.filter is_run (pre ++ evs ++ post) = [Ran args res] /\
                             b = probe_passes res).
  { intros pre post Hpre Hpost. rewrite !List.filter_app, Hpre, Hpost, app_nil_r. cbn [app].
    destruct Hevs as [[-> ->]|(args & res & -> & _ & ->)]; [by left|right; eauto]. }
  exists b. destruct b.
  - destruct (decide (CONFIG_FILE ∈ unwritable w)) as [Hw|Hw].
    + destruct (save_config_unwritable config
                  (emit (Printed "✓ SSH connection successful!")
                     (emits evs (emit (Printed (newline ++ "Testing SSH connection...")) w))))
        as (text & ->); [done|].
      py_simpl. world_norm. eexists _, _. split; [reflexivity|].
      split; [reflexivity|]. split; [by apply (Hruns [_] [_; _])|].
      split; [done|]. intros _. by rewrite bool_decide_eq_true_2.
    + rewrite save_config_writable by done. py_simpl.
      eexists (_ :: evs ++ [_; _])%list, _. split; [reflexivity|].
      split; [cbn; by rewrite <- !app_assoc|]. split; [by apply (Hruns [_] [_; _])|].
      split; [done|]. intros _. by rewrite bool_decide_eq_false_2.
  - world_norm. eexists _, _. split; [reflexivity|]. split; [reflexivity|].
    split; [by apply (Hruns [_] [_])|]. done.
Qed.

Lemma persist_probe_and_save config w : writes_after_probe (probe_and_save config) w.
Proof.
  destruct (probe_and_save_outcome config w) as (b & evs & w' & Heq & Htr & Hruns & Hfalse & Htrue).
  exists (Ok (if b then config else ∅)), w', evs. split; [done|]. split; [done|].
  assert (Hsucc : b = true -> probe_succeeded evs).
  { intros ->. destruct Hruns as [[_ ?]|(args & res & Hone & Hpass)]; [done|].
    exists args, res. split; [|done]. apply run_in_filter. rewrite Hone. by left. }
  assert (Hfail : probe_failed evs -> b = false).
  { intros (args & res & Hin & Hpass). destruct Hruns as [[_ ?]|(args' & res' & Hone & ->)]; [done|].
    apply run_in_filter in Hin. rewrite Hone in Hin. apply list_elem_of_singleton in Hin.
    congruence. }
  split; [|split].
  - intros Hfs. apply Hsucc. destruct b; [done|]. by destruct Hfs; apply Hfalse.
  - intros c [= <-] Hne. apply Hsucc. by destruct b.
  - intros Hf. apply Hfail in Hf as ->. split; [done|]. by apply Hfalse.
Qed.

Lemma persist_after {A} (pre : M A) (k : A -> M (gmap string value)) :
  quiet pre -> (forall a w, writes_after_probe (k a) w) -> forall w, writes_after_probe (bind pre k) w.
Proof.
  intros Hpre Hk w. unfold writes_after_probe, bind.
  destruct (Hpre w) as (Hfs & _ & evs1 & Htr1 & Hruns1).
  destruct (pre w) as [[a|e] w1]; cbn [snd] in *.
  - destruct (Hk a w1) as (r & w' & evs2 & -> & Htr2 & Hwr & Hret & Hfail).
    exists r, w', (evs1 ++ evs2)%list. split; [done|].
    split; [by rewrite Htr2, Htr1, app_assoc|].
    assert (Hmono : probe_succeeded evs2 -> probe_succeeded (evs1 ++ evs2)).
    { intros (args & res & Hin & Hpass). exists args, res. split; [|done].
      apply elem_of_app. by right. }
    split; [|split].
    + intros Hne. apply Hmono, Hwr. by rewrite Hfs.
    + intros c Hc Hne. by apply Hmono, (Hret c).
    + intros (args & res & Hin & Hpass). rewrite <- Hfs. apply Hfail.
      exists args, res. split; [|done]. apply elem_of_app in Hin as [Hin|Hin]; [|done].
      by apply no_run_not_in in Hin.
  - exists (Raise e), w1, evs1. split; [done|]. split; [done|]. split; [done|]. split; [done|].
    intros (args & res & Hin & _). by apply no_run_not_in in Hin.
Qed.

Lemma persist_ret_empty w : writes_after_probe (ret ∅) w.
Proof.
  exists (Ok ∅), w, []. split; [done|]. split; [by rewrite app_nil_r|].
  split; [done|]. split; [by intros c [= <-]|].
  intros (args & res & Hin & _). by apply elem_of_nil in Hin.
Qed.

Lemma probe_failure_returns_empty (prompts : M (gmap string value)) w config w1 w2 :
  quiet prompts ->
  prompts w = (Ok config, w1) ->
  test_ssh_connection config (emit (Printed (newline ++ "Testing SSH connection...")) w1)
    = (Ok false, w2) ->
  exists w', (config <- prompts ;; probe_and_save config) w = (Ok ∅, w') /\ fs w' = fs w.
Proof.
  intros Hq Hp Ht. destruct (Hq w) as (Hfs & _). rewrite Hp in Hfs. cbn [snd] in Hfs.
  destruct (test_ssh_connection_spec config
              (emit (Printed (newline ++ "Testing SSH connection...")) w1))
    as (b & evs & Heq & _).
  rewrite Ht in Heq. injection Heq as <- ->.
  unfold bind at 1. rewrite Hp. unfold probe_and_save.
  cbv beta iota zeta delta [bind print ret]. rewrite Ht.
  eexists. split; [reflexivity|]. done.
Qed.

(** C7: in the edit flow, in the create flow and in [setup_ssh_config] as
    a whole, the configuration file is written only after a probe that
    succeeded, and a record is handed back only then; when the probe
    fails the flow returns the empty record and the files on disk are what
    they were. *)
Theorem persists_only_after_probe existing_config w :
  persist_claim (edit_prompts existing_config) (edit_ssh_config existing_config) w /\
  persist_claim create_prompts create_ssh_config w /\
  writes_after_probe setup_ssh_config w.
Proof.
  assert (Hedit : forall c w0, writes_after_probe (edit_ssh_config c) w0).
  { intros c w0. apply persist_after; [apply quiet_edit_prompts|].
    intros; apply persist_probe_and_save. }
  assert (Hcreate : forall w0, writes_after_probe create_ssh_config w0).
  { intros w0. apply persist_after; [apply quiet_create_prompts|].
    intros; apply persist_probe_and_save. }
  split; [|split].
  - split; [done|]. intros config w1 w2.
    apply probe_failure_returns_empty, quiet_edit_prompts.
  - split; [done|]. intros config w1 w2.
    apply probe_failure_returns_empty, quiet_create_prompts.
  - unfold setup_ssh_config. apply persist_after; [apply quiet_load_config|].
    intros loaded w0. destruct (nonempty loaded); [|done].
    repeat (apply persist_after;
            [first [apply quiet_print | apply quiet_print_items | apply quiet_ask]|intros ? ?]).
    match goal with |- writes_after_probe (match ?c with _ => _ end) _ => destruct c end.
    + done.
    + apply persist_after; [apply quiet_print|]. done.
    + apply persist_after; [apply quiet_print|]. intros; apply persist_ret_empty.
Qed.

(** An unreachable host: the edit flow returns the empty record and the
    stored file is the one that was there. *)
Example edit_unreachable :
  let w := World {[CONFIG_FILE := Json sample_config]} ∅ ∅
             ["pi@other"; ""; ""; ""; ""] [] unreachable sample_home in
  let '(r, w') := edit_ssh_config sample_config w in
  r = Ok ∅ /\ fs w' = fs w.
Proof. vm_compute. split; reflexivity. Qed.

(** A reachable host: the edited record is stored and returned. *)
Example edit_reachable :
  let w := World {[CONFIG_FILE := Json sample_config]} ∅ ∅
             ["pi@other"; "2222"; ""; ""; ""] [] friendly sample_home in
  let '(r, w') := edit_ssh_config sample_config w in
  r = Ok (<["hostname" := VStr "pi@other"]> (<["port" := VInt 2222]> sample_config)) /\
  fs w' !! CONFIG_FILE
    = Some (Json (<["hostname" := VStr "pi@other"]> (<["port" := VInt 2222]> sample_config))).
Proof. vm_compute. split; reflexivity. Qed.

(** ** The edit flow *)

(** Runs the prompts of a flow on the lines of input at hand. *)
Ltac run_prompts :=
  cbv beta iota zeta delta
    [bind ret raise print input input_strip getitem emit set_input
     stdin trace fs unreadable unwritable spawn home].

(** C9: for every existing record, the edit flow with the answer 2
    (password) to the question of the authentication method and blank
    answers to the prompts before it reaches the probe with a record whose
    [hostname], [port] and [remote_dir] are those of the existing record:
    the existing record with [auth_method] set to [password]. *)
Theorem edit_password_keeps_connection existing_config w l1 l2 l3 l4 rest :
  stdin w = l1 :: l2 :: l3 :: l4 :: rest ->
  blank l1 -> blank l2 -> blank l3 -> strip l4 = "2" ->
  exists config w',
    edit_prompts existing_config w = (Ok config, w') /\
    edit_ssh_config existing_config w = probe_and_save config w' /\
    config = <["auth_method" := VStr "password"]> existing_config /\
    config !! "hostname" = existing_config !! "hostname" /\
    config !! "port" = existing_config !! "port" /\
    config !! "remote_dir" = existing_config !! "remote_dir".
Proof.
  unfold blank. intros Hin H1 H2 H3 H4. destruct w as [fs0 ur uw lines tr sp hm].
  cbn [stdin] in Hin. subst lines.
  unfold edit_ssh_config, edit_prompts. run_prompts.
  rewrite H1, H2, H3, H4. cbn [String.eqb Ascii.eqb Bool.eqb negb isdigit].
  rewrite lookup_insert_eq.
  replace (eq_str (VStr "password") "key") with false by (by vm_compute).
  eexists _, _. split; [reflexivity|]. split; [reflexivity|]. split; [reflexivity|].
  by rewrite !lookup_insert_ne.
Qed.

Lemma edit_password_keeps_connection_witness :
  exists config w',
    edit_prompts sample_config (sample_world [""; "  "; ""; " 2"] friendly) = (Ok config, w') /\
    edit_ssh_config sample_config (sample_world [""; "  "; ""; " 2"] friendly)
      = probe_and_save config w' /\
    config = <["auth_method" := VStr "password"]> sample_config /\
    config !! "hostname" = sample_config !! "hostname" /\
    config !! "port" = sample_config !! "port" /\
    config !! "remote_dir" = sample_config !! "remote_dir".
Proof.
  apply (edit_password_keeps_connection sample_config
           (sample_world [""; "  "; ""; " 2"] friendly) "" "  " "" " 2" []);
    reflexivity.
Defined.

(** Blank answers at every prompt leave a record that names its
    authentication method as it is. *)
Lemma edit_blank_keeps_record existing_config w l1 l2 l3 l4 l5 rest :
  is_Some (existing_config !! "auth_method") ->
  stdin w = l1 :: l2 :: l3 :: l4 :: l5 :: rest ->
  blank l1 -> blank l2 -> blank l3 -> blank l4 -> blank l5 ->
  exists w',
    edit_prompts existing_config w = (Ok existing_config, w') /\
    edit_ssh_config existing_config w = probe_and_save existing_config w'.
Proof.
  unfold blank. intros [auth Hauth] Hin H1 H2 H3 H4 H5.
  destruct w as [fs0 ur uw lines tr sp hm]. cbn [stdin] in Hin. subst lines.
  unfold edit_ssh_config, edit_prompts. run_prompts.
  rewrite H1, H2, H3, H4. cbn [String.eqb Ascii.eqb Bool.eqb negb isdigit].
  rewrite Hauth. destruct (eq_str auth "key").
  - run_prompts. rewrite H5. cbn [String.eqb negb]. by eexists.
  - by eexists.
Qed.

(** C8 at a record without [auth_method]: the prompt shows the default
    method and offers to keep it, and after four blank answers the flow
    raises [KeyError] where it indexes the record; no record comes out. *)
Theorem edit_blank_raises_without_auth_method existing_config w l1 l2 l3 l4 rest :
  existing_config !! "auth_method" = None ->
  stdin w = l1 :: l2 :: l3 :: l4 :: rest ->
  blank l1 -> blank l2 -> blank l3 -> blank l4 ->
  exists w',
    edit_prompts existing_config w = (Raise (KeyError "auth_method"), w') /\
    edit_ssh_config existing_config w = (Raise (KeyError "auth_method"), w') /\
    fs w' = fs w /\
    last (trace w')
      = Some (Prompted "Choose authentication method (1 or 2) [Enter to keep current]: ").
Proof.
  unfold blank. intros Hauth Hin H1 H2 H3 H4.
  destruct w as [fs0 ur uw lines tr sp hm]. cbn [stdin] in Hin. subst lines.
  unfold edit_ssh_config, edit_prompts. run_prompts.
  rewrite H1, H2, H3, H4. cbn [String.eqb Ascii.eqb Bool.eqb negb isdigit].
  rewrite Hauth. eexists. split; [reflexivity|]. split; [reflexivity|].
  split; [reflexivity|]. cbn [trace]. by rewrite last_snoc.
Qed.

Lemma edit_blank_raises_without_auth_method_witness :
  exists w',
    edit_prompts {["hostname" := VStr "pi@host"; "remote_dir" := VStr "~/work"]}
      (sample_world [""; ""; ""; ""; ""] friendly) = (Raise (KeyError "auth_method"), w') /\
    edit_ssh_config {["hostname" := VStr "pi@host"; "remote_dir" := VStr "~/work"]}
      (sample_world [""; ""; ""; ""; ""] friendly) = (Raise (KeyError "auth_method"), w') /\
    fs w' = fs (sample_world [""; ""; ""; ""; ""] friendly) /\
    last (trace w')
      = Some (Prompted "Choose authentication method (1 or 2) [Enter to keep current]: ").
Proof.
  apply (edit_blank_raises_without_auth_method
           {["hostname" := VStr "pi@host"; "remote_dir" := VStr "~/work"]}
           (sample_world [""; ""; ""; ""; ""] friendly) "" "" "" "" [""]);
    reflexivity.
Defined.

(** The same record is pushed and probed without complaint: only the edit
    flow needs [auth_method]. *)
Example record_without_auth_method_is_usable :
  let config : gmap string value :=
    {["hostname" := VStr "pi@host"; "remote_dir" := VStr "~/work"]} in
  (test_ssh_connection config (sample_world [] friendly)).1 = Ok true /\
  (push_files ["a.txt"] config false (sample_world [] friendly)).1 = Ok true.
Proof. vm_compute. split; reflexivity. Qed.

(** ** The records the configurator produces *)

Lemma ask_accepts {A} prompt (accept : string -> option A) complaint w a w' :
  ask prompt accept complaint w = (Ok a, w') -> exists s, accept s = Some a.
Proof.
  unfold ask.
  assert (forall lines tr r, (ask_lines prompt accept complaint lines tr).1.1 = Ok r ->
            exists s, accept s = Some r) as Hlines.
  { induction lines as [|l lines IH]; intros tr r; cbn [ask_lines]; [done|].
    destruct (accept (strip l)) as [a0|] eqn:Hacc; [|by apply IH].
    intros [= <-]. eauto. }
  specialize (Hlines (stdin w) (trace w) a).
  destruct (ask_lines prompt accept complaint (stdin w) (trace w)) as [[r lines] tr].
  intros [= -> _]. by apply Hlines.
Qed.








(** Switching to key authentication with a blank answer for the key path:
    the prompt shows the default path, the record gets none. *)
Example edit_switch_to_key_blank_path :
  let existing : gmap string value :=
    {["hostname" := VStr "pi@host"; "remote_dir" := VStr "~/work";
      "auth_method" := VStr "password"]} in
  let '(r, w') := edit_prompts existing (sample_world [""; ""; ""; "1"; ""] friendly) in
  r = Ok (<["auth_method" := VStr "key"]> existing) /\
  last (trace w') = Some (Prompted "SSH key path [~/.ssh/id_rsa]: ").
Proof. vm_compute. split; reflexivity. Qed.

(** A record without [hostname]: the probe fails before any command is
    run, and the edit flow returns the empty record. *)
Example edit_without_hostname :
  let existing : gmap string value := {["auth_method" := VStr "password"]} in
  let '(r, w') := edit_ssh_config existing (sample_world [""; ""; ""; ""] friendly) in
  r = Ok ∅ /\ runs w' = [] /\ fs w' = sample_fs.
Proof. vm_compute. repeat split; reflexivity. Qed.

(** The create flow in full: the record of the answers is saved. *)
Example create_with_password :
  let w := sample_world [""; " pi@host "; "2200"; "~/w"; "3"; "2"] friendly in
  let '(r, w') := create_ssh_config w in
  r = Ok {["hostname" := VStr "pi@host"; "port" := VInt 2200; "remote_dir" := VStr "~/w";
           "auth_method" := VStr "password"]} /\
  fs w' !! CONFIG_FILE
    = Some (Json {["hostname" := VStr "pi@host"; "port" := VInt 2200;
                   "remote_dir" := VStr "~/w"; "auth_method" := VStr "password"]}).
Proof. vm_compute. split; reflexivity. Qed.

(** ** The string operations on examples *)

Example strip_examples :
  strip "  pi@host	 " = "pi@host" /\ strip "   " = "" /\ strip "a b" = "a b".
Proof. repeat split; reflexivity. Qed.

Example isdigit_examples :
  isdigit "2222" = true /\ int "2222" = 2222 /\ int "007" = 7 /\
  isdigit "" = false /\ isdigit "-1" = false /\ isdigit "22a" = false.
Proof. repeat split; reflexivity. Qed.

Example str_examples :
  str (VInt 22) = "22" /\ str (VInt (-7)) = "-7" /\ str VNull = "None" /\
  str (VBool true) = "True".
Proof. repeat split; vm_compute; reflexivity. Qed.

(** The menu of [setup_ssh_config]: an answer that is not on the menu is
    asked again, and cancelling leaves the file alone. *)
Example setup_cancel :
  let w := World {[CONFIG_FILE := Json sample_config]} ∅ ∅ ["9"; "3"] [] friendly sample_home in
  let '(r, w') := setup_ssh_config w in
  r = Ok ∅ /\ fs w' = fs w /\ last (trace w') = Some (Printed "Setup cancelled.").
Proof. vm_compute. repeat split; reflexivity. Qed.

(** * Further properties *)

(** ** The prompt loops *)

Lemma ask_lines_accepts {A} prompt (accept : string -> option A) complaint
    rejected l a rest tr :
  Forall (fun x => accept (strip x) = None) rejected ->
  accept (strip l) = Some a ->
  ask_lines prompt accept complaint (rejected ++ l :: rest) tr
  = (Ok a, rest, (tr ++ complaints prompt complaint rejected ++ [Prompted prompt])%list).
Proof.
  intros Hrej Hacc. revert tr.
  induction Hrej as [|x rejected Hx _ IH]; intros tr; cbn [app ask_lines].
  - by rewrite Hacc.
  - rewrite Hx, IH. unfold complaints. cbn [List.map List.concat].
    by rewrite <- !app_assoc.
Qed.

Lemma ask_lines_eof {A} prompt (accept : string -> option A) complaint rejected tr :
  Forall (fun x => accept (strip x) = None) rejected ->
  ask_lines prompt accept complaint rejected tr
  = (Raise (EOFError "EOF when reading a line"), [],
     (tr ++ complaints prompt complaint rejected ++ [Prompted prompt])%list).
Proof.
  intros Hrej. revert tr.
  induction Hrej as [|x rejected Hx _ IH]; intros tr; cbn [ask_lines].
  - done.
  - rewrite Hx, IH. unfold complaints. cbn [List.map List.concat].
    by rewrite <- !app_assoc.
Qed.

Lemma ask_skips_rejected {A} prompt (accept : string -> option A) complaint
    w rejected l a rest :
  stdin w = (rejected ++ l :: rest)%list ->
  Forall (fun x => accept (strip x) = None) rejected ->
  accept (strip l) = Some a ->
  ask prompt accept complaint w
  = (Ok a, set_input rest
             (trace w ++ complaints prompt complaint rejected ++ [Prompted prompt])%list w).
Proof.
  intros Hin Hrej Hacc. unfold ask. rewrite Hin.
  by rewrite (ask_lines_accepts _ _ _ _ _ _ _ _ Hrej Hacc).
Qed.

(** X1: a prompt loop of [setup_ssh_config] (menu, hostname,
    authentication method) takes the first answer it accepts: every line
    before it is answered with the complaint and the prompt again, the
    lines after it are left for the next prompt. *)
Theorem ask_takes_first_accepted {A} prompt (accept : string -> option A) complaint
    w rejected l a rest :
  stdin w = (rejected ++ l :: rest)%list ->
  Forall (fun x => accept (strip x) = None) rejected ->
  accept (strip l) = Some a ->
  ask prompt accept complaint w
  = (Ok a, set_input rest
             (trace w ++ complaints prompt complaint rejected ++ [Prompted prompt])%list w).
Proof. apply ask_skips_rejected. Qed.

Lemma ask_takes_first_accepted_witness :
  let w := sample_world [""; "   "; " pi@host "; "22"] friendly in
  ask "Remote hostname/IP (e.g., pi@192.168.1.100): "
    (fun s => if String.eqb s "" then None else Some s) "Hostname cannot be empty." w
  = (Ok "pi@host",
     set_input ["22"]
       [Prompted "Remote hostname/IP (e.g., pi@192.168.1.100): ";
        Printed "Hostname cannot be empty.";
        Prompted "Remote hostname/IP (e.g., pi@192.168.1.100): ";
        Printed "Hostname cannot be empty.";
        Prompted "Remote hostname/IP (e.g., pi@192.168.1.100): "] w).
Proof.
  intros w.
  apply (ask_takes_first_accepted _ _ _ w [""; "   "] " pi@host " "pi@host" ["22"]).
  - reflexivity.
  - repeat constructor.
  - reflexivity.
Defined.

(** X2: when the input ends before an answer is accepted, the loop
    raises [EOFError] after the last prompt; nothing catches it. *)
Theorem ask_raises_at_end_of_input {A} prompt (accept : string -> option A) complaint w :
  Forall (fun x => accept (strip x) = None) (stdin w) ->
  ask prompt accept complaint w
  = (Raise (EOFError "EOF when reading a line"),
     set_input []
       (trace w ++ complaints prompt complaint (stdin w) ++ [Prompted prompt])%list w).
Proof.
  intros Hrej. unfold ask. by rewrite (ask_lines_eof _ _ _ _ _ Hrej).
Qed.

Lemma ask_raises_at_end_of_input_witness :
  (create_ssh_config (sample_world [""; "  "] friendly)).1
  = Raise (EOFError "EOF when reading a line") /\
  ask "Choose option (1-3): "
    (fun s => if String.eqb s "3" then Some tt else None) "Please enter 1, 2, or 3."
    (sample_world ["4"] friendly)
  = (Raise (EOFError "EOF when reading a line"),
     set_input []
       [Prompted "Choose option (1-3): "; Printed "Please enter 1, 2, or 3.";
        Prompted "Choose option (1-3): "] (sample_world ["4"] friendly)).
Proof.
  split; [by vm_compute|].
  apply (ask_raises_at_end_of_input "Choose option (1-3): "
           (fun s => if String.eqb s "3" then Some tt else None)
           "Please enter 1, 2, or 3." (sample_world ["4"] friendly)).
  repeat constructor.
Defined.

(** ** The records of the two flows *)

Lemma int_acc_nonneg s acc : all_digits s = true -> 0 <= acc -> 0 <= int_acc acc s.
Proof.
  revert acc. induction s as [|a s IH]; intros acc Hd Hacc; cbn [int_acc all_digits] in *; [done|].
  apply andb_true_iff in Hd as [Ha Hs]. apply IH; [done|].
  unfold is_digit in Ha. apply andb_true_iff in Ha as [Hlo _].
  apply Nat.leb_le in Hlo. lia.
Qed.

Lemma int_nonneg s : isdigit s = true -> 0 <= int s.
Proof.
  intros H. apply int_acc_nonneg; [|done]. by destruct s.
Qed.

Lemma create_prompts_fields w config w' :
  create_prompts w = (Ok config, w') ->
  (exists h, config !! "hostname" = Some (VStr h) /\ h <> "") /\
  (exists n, config !! "port" = Some (VInt n) /\ 0 <= n) /\
  (exists d, config !! "remote_dir" = Some (VStr d) /\ d <> "") /\
  key_path_is_str config /\
  dom config ⊆ {["hostname"; "port"; "remote_dir"; "auth_method"; "key_path"]}.
Proof.
  unfold create_prompts. cbv beta iota zeta delta [bind print].
  destruct (ask _ _ _ _) as [[hostname|?] w1] eqn:Hhost; [|done].
  apply ask_accepts in Hhost as [s Hs].
  assert (hostname <> "") as Hh.
  { destruct (String.eqb_spec s ""); [done|]. congruence. }
  destruct (input_strip _ w1) as [[port|?] w2]; [|done].
  destruct (input_strip _ w2) as [[remote_dir|?] w3]; [|done].
  destruct (ask _ _ _ (emit _ _)) as [[auth|?] w4]; [|done].
  cbv beta iota zeta delta [getitem ret]. rewrite lookup_insert_eq.
  set (n := if isdigit port then int port else 22).
  assert (0 <= n) as Hn.
  { subst n. destruct (isdigit port) eqn:Hd; [by apply int_nonneg|done]. }
  set (d := if String.eqb remote_dir "" then "~/fpga_work" else remote_dir).
  assert (d <> "") as Hd.
  { subst d. destruct (String.eqb_spec remote_dir ""); done. }
  destruct (eq_str (VStr auth) "key").
  - cbv beta iota zeta delta [bind ret].
    destruct (input_strip _ w4) as [[key_path|?] w5]; [|done].
    intros [= <- _]. repeat split.
    + exists hostname. rewrite !lookup_insert_ne by done. by rewrite lookup_insert_eq.
    + exists n. rewrite !lookup_insert_ne by done. by rewrite lookup_insert_eq.
    + exists d. rewrite !lookup_insert_ne by done. by rewrite lookup_insert_eq.
    + intros v. rewrite lookup_insert_eq. intros [= <-]. eauto.
    + rewrite !dom_insert_L, dom_empty_L. set_unfold. tauto.
  - intros [= <- _]. repeat split.
    + exists hostname. rewrite !lookup_insert_ne by done. by rewrite lookup_insert_eq.
    + exists n. rewrite !lookup_insert_ne by done. by rewrite lookup_insert_eq.
    + exists d. rewrite !lookup_insert_ne by done. by rewrite lookup_insert_eq.
    + intros v. rewrite !lookup_insert_ne by done. by rewrite lookup_empty.
    + rewrite !dom_insert_L, dom_empty_L. set_unfold. tauto.
Qed.

(** X5: every record the prompts of the create flow end with has a
    non-empty [hostname], a [port] that is a non-negative integer (22
    unless the answer is all digits), a non-empty [remote_dir] and a key
    path that is a string if there is one; it has no other fields than
    these and [auth_method]. *)
Theorem create_prompts_record w config w' :
  create_prompts w = (Ok config, w') ->
  (exists h, config !! "hostname" = Some (VStr h) /\ h <> "") /\
  (exists n, config !! "port" = Some (VInt n) /\ 0 <= n) /\
  (exists d, config !! "remote_dir" = Some (VStr d) /\ d <> "") /\
  key_path_is_str config /\
  dom config ⊆ {["hostname"; "port"; "remote_dir"; "auth_method"; "key_path"]}.
Proof. apply create_prompts_fields. Qed.

Lemma create_prompts_record_witness :
  exists config w',
    create_prompts (sample_world [" pi@host "; "22x"; ""; "1"; ""] friendly) = (Ok config, w') /\
    config !! "port" = Some (VInt 22) /\
    (exists h, config !! "hostname" = Some (VStr h) /\ h <> "").
Proof.
  eexists _, _. split; [by vm_compute|]. split; [by vm_compute|].
  eapply (create_prompts_record (sample_world [" pi@host "; "22x"; ""; "1"; ""] friendly)).
  by vm_compute.
Defined.
(** ** Loading, and the menu of the setup *)

Lemma load_config_stored w :
  exists evs, load_config w = (Ok (stored_config w), emits evs w) /\
    (evs = [] \/ exists text, evs = [Logged WARNING text]).
Proof.
  unfold load_config, stored_config. py_simpl. unfold open_json_load.
  case_bool_decide as Hex.
  - case_bool_decide.
    + eexists [_]. split; [reflexivity|]. right. eauto.
    + destruct (fs w !! CONFIG_FILE) as [[c|msg]|].
      * exists []. by rewrite emits_nil; auto.
      * eexists [_]. split; [reflexivity|]. right. eauto.
      * by destruct Hex.
  - exists []. rewrite emits_nil. split; [|by left].
    case_bool_decide; [done|]. destruct (fs w !! CONFIG_FILE) as [[c|msg]|] eqn:Hf; try done.
    destruct Hex. eauto.
Qed.


Lemma print_items_emits items w :
  exists evs, print_items items w = (Ok tt, emits evs w) /\ List.filter is_run evs = [].
Proof.
  revert w. induction items as [|[key value] items IH]; intros w; cbn [print_items].
  - exists []. by rewrite emits_nil.
  - unfold bind at 1.
    assert (exists line,
      (if String.eqb key "password"
       then print ("  " ++ key ++ ": " ++
                   (if truthy value then repeat_str "*" (String.length (str value))
                    else "None"))
       else print ("  " ++ key ++ ": " ++ str value)) w = (Ok tt, emits [Printed line] w))
      as [line ->] by (destruct (String.eqb key "password"); by eexists).
    destruct (IH (emits [Printed line] w)) as (evs & -> & Hevs).
    rewrite emits_emits. eexists. split; [reflexivity|]. done.
Qed.

Lemma complaints_no_run prompt complaint rejected :
  List.filter is_run (complaints prompt complaint rejected) = [].
Proof. unfold complaints. induction rejected as [|x rejected IH]; [done|]. exact IH. Qed.

Lemma set_input_emits lines evs1 evs2 w :
  set_input lines (trace (emits evs1 w) ++ evs2) (emits evs1 w)
  = set_input lines (trace w ++ (evs1 ++ evs2)) w.
Proof. unfold set_input, emits; cbn. by rewrite app_assoc. Qed.

Lemma emits_set_input evs' lines evs w :
  emits evs' (set_input lines (trace w ++ evs) w)
  = set_input lines (trace w ++ (evs ++ evs')) w.
Proof. unfold set_input, emits; cbn. by rewrite app_assoc. Qed.

Lemma runs_set_input lines evs w :
  List.filter is_run evs = [] -> runs (set_input lines (trace w ++ evs) w) = runs w.
Proof.
  intros H. unfold runs, set_input; cbn [trace]. by rewrite List.filter_app, H, app_nil_r.
Qed.

(** X3: with a stored configuration, answering the menu of
    [setup_ssh_config] with 3, after any number of answers that are not on
    the menu, cancels the setup: the empty record comes back, no file is
    written, no child process is started, and the lines after the answer
    are not read. *)
Theorem setup_cancel_changes_nothing w rejected l rest :
  stored_config w <> ∅ ->
  stdin w = (rejected ++ l :: rest)%list ->
  Forall not_on_menu rejected ->
  strip l = "3" ->
  exists w',
    setup_ssh_config w = (Ok ∅, w') /\
    fs w' = fs w /\ runs w' = runs w /\ stdin w' = rest /\
    last (trace w') = Some (Printed "Setup cancelled.").
Proof.
  intros Hcfg Hin Hrej Hl. unfold setup_ssh_config. unfold bind at 1.
  destruct (load_config_stored w) as (evs0 & -> & Hevs0).
  unfold nonempty. rewrite bool_decide_eq_true_2 by done.
  cbv beta iota zeta delta [bind print].
  destruct (print_items_emits (map_to_list (stored_config w))
              (emit (Printed "Current configuration:")
                 (emit (Printed "SSH Configuration already exists!") (emits evs0 w))))
    as (evs1 & -> & Hevs1).
  world_norm.
  match goal with |- context [ask _ ?acc _ (emits ?evs w)] =>
    rewrite (ask_skips_rejected _ acc _ (emits evs w) rejected l Cancel rest);
      [set (pre := evs)| | |]
  end.
  - cbv beta iota zeta delta [ret]. rewrite set_input_emits, emits_set_input.
    eexists. split; [reflexivity|]. split; [reflexivity|].
    split; [|split; [reflexivity|]].
    + apply runs_set_input. subst pre.
      repeat (rewrite List.filter_app; cbn [List.filter is_run]).
      rewrite Hevs1, complaints_no_run.
      assert (List.filter is_run evs0 = []) as -> by (by destruct Hevs0 as [->|[? ->]]).
      done.
    + cbn [trace set_input]. by rewrite !app_assoc, last_snoc.
  - done.
  - eapply Forall_impl; [exact Hrej|]. intros x (H1 & H2 & H3). cbn beta.
    destruct (String.eqb_spec (strip x) "1"); [done|].
    destruct (String.eqb_spec (strip x) "2"); [done|].
    by destruct (String.eqb_spec (strip x) "3").
  - by rewrite Hl.
Qed.

Lemma setup_cancel_changes_nothing_witness :
  let w := World {[CONFIG_FILE := Json sample_config]} ∅ ∅ ["9"; ""; " 3 "; "1"] []
             friendly sample_home in
  exists w',
    setup_ssh_config w = (Ok ∅, w') /\
    fs w' = fs w /\ runs w' = runs w /\ stdin w' = ["1"] /\
    last (trace w') = Some (Printed "Setup cancelled.").
Proof.
  intros w. apply (setup_cancel_changes_nothing w ["9"; ""] " 3 " ["1"]).
  - intros H. apply (f_equal (fun m => m !! "hostname")) in H. vm_compute in H. discriminate H.
  - reflexivity.
  - repeat constructor; by vm_compute.
  - reflexivity.
Defined.




(** ** The remote shell commands *)

Lemma ssh_command_shape (config : gmap string value) port hostname command w :
  exists r, ssh_command config port hostname command w = (r, w) /\
    (key_path_is_str config -> exists args, r = Ok args) /\
    forall args, r = Ok args ->
      exists pre, args = (VStr "ssh" :: pre ++
                          [VStr "-p"; VStr (str port); hostname; VStr command])%list /\
        (pre = [] \/ exists k, pre = [VStr "-i"; VStr k] /\ is_Some (fs w !! k)).
Proof.
  unfold ssh_command, get. py_simpl.
  destruct (config !! "key_path") as [key|] eqn:Hkey; cbn [default].
  2: { rewrite andb_false_r. eexists. split; [reflexivity|]. split; [eauto|].
       intros ? [= <-]. exists []. auto. }
  destruct (eq_str _ _ && truthy _).
  2: { eexists. split; [reflexivity|]. split; [eauto|]. intros ? [= <-]. exists []. auto. }
  destruct key as [| | |s].
  1-3: eexists; (split; [reflexivity|]); (split; [|done]);
       intros H; by destruct (H _ Hkey).
  case_bool_decide as Hex; (eexists; split; [reflexivity|]; split; [eauto|]);
    intros ? [= <-].
  - exists [VStr "-i"; VStr (home w s)]. split; [done|]. right. eauto.
  - exists []. auto.
Qed.

Lemma ensure_remote_directory_runs config remote_dir w :
  exists b evs, ensure_remote_directory config remote_dir w = (Ok b, emits evs w) /\
    (b = true <-> exists args out err, List.filter is_run evs = [Ran args (Exited 0 out err)]) /\
    (forall args res, Ran args res ∈ evs ->
       List.filter is_run evs = [Ran args res] /\
       remote_command config ("mkdir -p " ++ str remote_dir) args) /\
    (is_Some (config !! "hostname") -> key_path_is_str config ->
       exists args res, List.filter is_run evs = [Ran args res]).
Proof.
  unfold ensure_remote_directory.
  cbv beta iota zeta delta [bind try_except getitem].
  destruct (config !! "hostname") as [hostname|] eqn:Hh; py_simpl.
  2: { eexists _, [_]. split; [reflexivity|]. split; [|split].
       - split; [done|]. by intros (? & ? & ? & [=]).
       - intros args res Hin. apply list_elem_of_singleton in Hin. done.
       - by intros [? ?]. }
  destruct (ssh_command_shape config (get config "port" (VInt 22)) hostname
              ("mkdir -p " ++ str remote_dir) w) as (r & -> & Hok & Hr).
  destruct r as [args|e].
  2: { eexists _, [_]. split; [reflexivity|]. split; [|split].
       - split; [done|]. by intros (? & ? & ? & [=]).
       - intros args res Hin. apply list_elem_of_singleton in Hin. done.
       - intros _ Hkp. by destruct (Hok Hkp). }
  destruct (Hr _ eq_refl) as (pre & Hargs & Hpre).
  assert (remote_command config ("mkdir -p " ++ str remote_dir) args) as Hcmd.
  { exists hostname, pre. split; [done|]. split; [done|].
    destruct Hpre as [->|(k & -> & _)]; eauto. }
  rewrite subprocess_run_spec.
  destruct (child_outcome args w) as [rc out err|e]; cbn [returncode]; world_norm.
  - eexists _, [_]. split; [reflexivity|]. cbn [List.filter is_run]. split; [|split].
    + rewrite Z.eqb_eq. split.
      * intros ->. eauto.
      * by intros (? & ? & ? & [= _ -> _ _]).
    + intros args' res' Hin. apply list_elem_of_singleton in Hin. by injection Hin as -> ->.
    + eauto.
  - eexists _, [_; _]. split; [reflexivity|]. cbn [List.filter is_run]. split; [|split].
    + split; [done|]. by intros (? & ? & ? & [=]).
    + intros args' res' Hin. apply elem_of_cons in Hin as [Hin|Hin].
      * by injection Hin as -> ->.
      * apply list_elem_of_singleton in Hin. done.
    + eauto.
Qed.

(** X6: [ensure_remote_directory] always returns a Boolean and starts at
    most one child process, the command [mkdir -p] of the directory sent
    to the host and port of the record; it returns true exactly when that
    command exited with status 0 (its output does not matter), and with a
    record whose key path is a string the command is always started when
    the record names a host. *)
Theorem ensure_remote_directory_result config remote_dir w :
  exists b evs, ensure_remote_directory config remote_dir w = (Ok b, emits evs w) /\
    (b = true <-> exists args out err, List.filter is_run evs = [Ran args (Exited 0 out err)]) /\
    (forall args res, Ran args res ∈ evs ->
       List.filter is_run evs = [Ran args res] /\
       remote_command config ("mkdir -p " ++ str remote_dir) args) /\
    (is_Some (config !! "hostname") -> key_path_is_str config ->
       exists args res, List.filter is_run evs = [Ran args res]).
Proof. apply ensure_remote_directory_runs. Qed.

(** X7: [list_remote_files] always returns a Boolean and starts at most
    one child process, the command [ls -la] of the remote directory; it
    returns true exactly when that command exited with status 0, and then
    the last thing it prints is the output of the command.  With an empty
    record, or a record without [hostname] or [remote_dir], it returns
    false without starting anything. *)
Theorem list_remote_files_result config w :
  exists b evs, list_remote_files config w = (Ok b, emits evs w) /\
    (b = true <->
       exists args out err, List.filter is_run evs = [Ran args (Exited 0 out err)]) /\
    (forall args out err, Ran args (Exited 0 out err) ∈ evs ->
       last evs = Some (Printed out)) /\
    (forall args res, Ran args res ∈ evs ->
       List.filter is_run evs = [Ran args res] /\
       exists remote_dir, config !! "remote_dir" = Some remote_dir /\
         remote_command config ("ls -la " ++ str remote_dir) args) /\
    (config !! "hostname" = None \/ config !! "remote_dir" = None ->
       b = false /\ List.filter is_run evs = []).
Proof.
  assert (Hnone : forall text,
    exists b evs, (Ok false, emit (Logged ERROR text) w) = (Ok b, emits evs w) /\
    (b = true <->
       exists args out err, List.filter is_run evs = [Ran args (Exited 0 out err)]) /\
    (forall args out err, Ran args (Exited 0 out err) ∈ evs ->
       last evs = Some (Printed out)) /\
    (forall args res, Ran args res ∈ evs ->
       List.filter is_run evs = [Ran args res] /\
       exists remote_dir, config !! "remote_dir" = Some remote_dir /\
         remote_command config ("ls -la " ++ str remote_dir) args) /\
    (config !! "hostname" = None \/ config !! "remote_dir" = None ->
       b = false /\ List.filter is_run evs = [])).
  { intros text. eexists _, [_]. split; [reflexivity|]. split; [|split; [|split]].
    - split; [done|]. by intros (? & ? & ? & [=]).
    - intros args out err Hin. apply list_elem_of_singleton in Hin. done.
    - intros args res Hin. apply list_elem_of_singleton in Hin. done.
    - done. }
  unfold list_remote_files, nonempty.
  case_bool_decide as Hcfg; cbn [negb]; py_simpl; [|apply Hnone].
  destruct (config !! "hostname") as [hostname|] eqn:Hh; [|apply Hnone].
  destruct (config !! "remote_dir") as [remote_dir|] eqn:Hrd; [|apply Hnone].
  destruct (ssh_command_shape config (get config "port" (VInt 22)) hostname
              ("ls -la " ++ str remote_dir) w) as (r & -> & _ & Hr).
  destruct r as [args|e]; [|apply Hnone].
  destruct (Hr _ eq_refl) as (pre & Hargs & Hpre).
  assert (remote_command config ("ls -la " ++ str remote_dir) args) as Hcmd.
  { exists hostname, pre. split; [done|]. split; [done|].
    destruct Hpre as [->|(k & -> & _)]; eauto. }
  rewrite subprocess_run_spec.
  destruct (child_outcome args w) as [rc out err|e]; cbn [returncode stdout stderr].
  - destruct (rc =? 0) eqn:Hrc; world_norm.
    + apply Z.eqb_eq in Hrc as ->.
      eexists _, [_; _; _; _]. split; [reflexivity|]. cbn [List.filter is_run].
      split; [|split; [|split]].
      * split; eauto.
      * intros args' out' err' Hin. apply elem_of_cons in Hin as [Hin|Hin].
        -- by injection Hin as -> -> ->.
        -- repeat (apply elem_of_cons in Hin as [Hin|Hin]; [done|]).
           by apply elem_of_nil in Hin.
      * intros args' res' Hin. apply elem_of_cons in Hin as [Hin|Hin].
        -- injection Hin as -> ->. eauto.
        -- repeat (apply elem_of_cons in Hin as [Hin|Hin]; [done|]).
           by apply elem_of_nil in Hin.
      * intros [?|?]; congruence.
    + apply Z.eqb_neq in Hrc.
      eexists _, [_; _]. split; [reflexivity|]. cbn [List.filter is_run].
      split; [|split; [|split]].
      * split; [done|]. by intros (? & ? & ? & [= _ -> _ _]).
      * intros args' out' err' Hin. apply elem_of_cons in Hin as [Hin|Hin].
        -- injection Hin as _ <- _ _. done.
        -- apply list_elem_of_singleton in Hin. done.
      * intros args' res' Hin. apply elem_of_cons in Hin as [Hin|Hin].
        -- injection Hin as -> ->. eauto.
        -- apply list_elem_of_singleton in Hin. done.
      * intros [?|?]; congruence.
  - world_norm. eexists _, [_; _]. split; [reflexivity|]. cbn [List.filter is_run].
    split; [|split; [|split]].
    + split; [done|]. by intros (? & ? & ? & [=]).
    + intros args' out' err' Hin. apply elem_of_cons in Hin as [Hin|Hin]; [done|].
      apply list_elem_of_singleton in Hin. done.
    + intros args' res' Hin. apply elem_of_cons in Hin as [Hin|Hin].
      * injection Hin as -> ->. eauto.
      * apply list_elem_of_singleton in Hin. done.
    + intros [?|?]; congruence.
Qed.

(** The lister at work. *)
Example list_remote_files_examples :
  let answers (_ : list event) (_ : list string) :=
    Exited 0 ("total 0" ++ newline) "" in
  (list_remote_files sample_config (sample_world [] answers)).1 = Ok true /\
  last (trace (list_remote_files sample_config (sample_world [] answers)).2)
    = Some (Printed ("total 0" ++ newline)) /\
  (list_remote_files sample_config (sample_world [] unreachable)).1 = Ok false /\
  list_remote_files {["port" := VInt 22]} (sample_world [] answers)
  = (Ok false, emits [Logged ERROR "Error listing remote files: 'hostname'"]
                 (sample_world [] answers)).
Proof. vm_compute. repeat split; reflexivity. Qed.

Lemma test_ssh_connection_runs config w :
  is_Some (config !! "hostname") ->
  key_path_is_str config ->
  exists b evs args res,
    test_ssh_connection config w = (Ok b, emits evs w) /\
    List.filter is_run evs = [Ran args res] /\
    remote_command config ("echo " ++ dquote ++ MARKER ++ dquote) args /\
    b = probe_passes res.
Proof.
  intros [hostname Hh] Hkp. unfold test_ssh_connection.
  cbv beta iota zeta delta [bind try_except getitem]. rewrite Hh. py_simpl.
  destruct (ssh_command_shape config (get config "port" (VInt 22)) hostname
              ("echo " ++ dquote ++ MARKER ++ dquote) w) as (r & -> & Hok & Hr).
  destruct (Hok Hkp) as [args ->].
  destruct (Hr _ eq_refl) as (pre & Hargs & Hpre).
  assert (remote_command config ("echo " ++ dquote ++ MARKER ++ dquote) args) as Hcmd.
  { exists hostname, pre. split; [done|]. split; [done|].
    destruct Hpre as [->|(k & -> & _)]; eauto. }
  rewrite subprocess_run_spec.
  destruct (child_outcome args w) as [rc out err|e] eqn:Hres; cbn [returncode stdout].
  - destruct (rc =? 0) eqn:Hrc; py_simpl;
      (eexists _, [_], args, _; split; [reflexivity|]; split; [reflexivity|];
       split; [done|]; cbn [probe_passes]; by rewrite Hrc).
  - world_norm. eexists _, [_; _], args, _. split; [reflexivity|]. by repeat split.
Qed.

(** X8: with a record that names a host and whose key path, if any, is a
    string, the probe starts exactly one child process, the command
    [echo] of the marker sent to the host and port of the record (22 when
    the record has no port), and its result is what that command gives. *)
Theorem probe_runs_one_command config w :
  is_Some (config !! "hostname") ->
  key_path_is_str config ->
  exists b evs args res,
    test_ssh_connection config w = (Ok b, emits evs w) /\
    List.filter is_run evs = [Ran args res] /\
    remote_command config ("echo " ++ dquote ++ MARKER ++ dquote) args /\
    b = probe_passes res.
Proof. apply test_ssh_connection_runs. Qed.

Lemma probe_runs_one_command_witness :
  exists b evs args res,
    test_ssh_connection {["hostname" := VStr "pi@host"]} (sample_world [] friendly)
      = (Ok b, emits evs (sample_world [] friendly)) /\
    List.filter is_run evs = [Ran args res] /\
    remote_command {["hostname" := VStr "pi@host"]}
      ("echo " ++ dquote ++ MARKER ++ dquote) args /\
    b = probe_passes res.
Proof.
  apply probe_runs_one_command.
  - vm_compute. eauto.
  - intros v H. vm_compute in H. discriminate H.
Defined.

(** X9: a record that comes out of the prompts of the create flow has
    what the later commands index: for every non-empty list of paths
    [push_files] returns a Boolean with it (no [KeyError]), and the probe
    and the directory step each start their command. *)
Theorem created_record_is_usable w config w1 files verbose w2 :
  create_prompts w = (Ok config, w1) ->
  files <> [] ->
  (exists b evs, push_files files config verbose w2 = (Ok b, emits evs w2)) /\
  (exists b evs args res,
     test_ssh_connection config w2 = (Ok b, emits evs w2) /\
     List.filter is_run evs = [Ran args res]) /\
  (forall remote_dir, exists b evs args res,
     ensure_remote_directory config remote_dir w2 = (Ok b, emits evs w2) /\
     List.filter is_run evs = [Ran args res]).
Proof.
  intros Hcreate Hfiles.
  destruct (create_prompts_fields _ _ _ Hcreate)
    as ((h & Hh & _) & _ & (d & Hd & _) & Hkp & _).
  split; [|split].
  - destruct (push_files_cases files config verbose w2) as (r & evs & Heq & Hcases).
    destruct Hcases as
      [(Hempty & _)
      |[(_ & _ & Hmiss & _)
      |[(? & ? & ? & _ & _ & _ & _ & _ & -> & _)
      |(? & ? & ? & ? & ? & _ & _ & _ & _ & _ & _ & -> & _)]]].
    + destruct Hempty as [Hempty|Hempty]; [|done].
      rewrite Hempty, lookup_empty in Hh. done.
    + destruct Hmiss; congruence.
    + eauto.
    + eauto.
  - destruct (test_ssh_connection_runs config w2) as (b & evs & args & res & ? & ? & _);
      eauto 10.
  - intros remote_dir.
    destruct (ensure_remote_directory_runs config remote_dir w2)
      as (b & evs & Heq & _ & _ & Hrun).
    destruct Hrun as (args & res & Hrun); eauto 10.
Qed.

Lemma created_record_is_usable_witness :
  exists config w1,
    create_prompts (sample_world ["pi@host"; ""; ""; "2"] friendly) = (Ok config, w1) /\
    exists b evs,
      push_files ["a.txt"] config false (sample_world [] unreachable)
      = (Ok b, emits evs (sample_world [] unreachable)).
Proof.
  eexists _, _. split; [by vm_compute|].
  eapply (created_record_is_usable (sample_world ["pi@host"; ""; ""; "2"] friendly)).
  - by vm_compute.
  - intros H. discriminate H.
Defined.

(** ** What the edit flow does to the fields *)

(** X10: the prompts of the edit flow never remove a field of the
    existing record, and a field that is not one of the five they ask
    about (a stored password, say) comes out as it went in. *)
Theorem edit_prompts_keep_fields existing_config w config w' :
  edit_prompts existing_config w = (Ok config, w') ->
  dom existing_config ⊆ dom config /\
  forall key,
    key ∉ ["hostname"; "port"; "remote_dir"; "auth_method"; "key_path"] ->
    config !! key = existing_config !! key.
Proof.
  unfold edit_prompts. cbv beta iota zeta delta [bind print].
  destruct (input_strip _ _) as [[hostname|?] w1]; [|done].
  destruct (input_strip _ w1) as [[port|?] w2]; [|done].
  destruct (input_strip _ w2) as [[remote_dir|?] w3]; [|done].
  destruct (input_strip _ _) as [[auth_choice|?] w4]; [|done].
  set (c1 := if negb (String.eqb hostname "") then _ else existing_config).
  set (c2 := if isdigit port then _ else c1).
  set (c3 := if negb (String.eqb remote_dir "") then _ else c2).
  set (c4 := if String.eqb auth_choice "1" then _ else _).
  assert (H4 : dom existing_config ⊆ dom c4 /\
               forall key,
                 key ∉ ["hostname"; "port"; "remote_dir"; "auth_method"; "key_path"] ->
                 c4 !! key = existing_config !! key).
  { subst c4 c3 c2 c1. split.
    - destruct (String.eqb auth_choice "1"), (String.eqb auth_choice "2"),
        (negb (String.eqb remote_dir "")), (isdigit port), (negb (String.eqb hostname ""));
        rewrite ?dom_insert_L; set_unfold; tauto.
    - intros key Hkey.
      assert (key <> "hostname" /\ key <> "port" /\ key <> "remote_dir" /\
              key <> "auth_method") as (? & ? & ? & ?).
      { set_unfold. tauto. }
      destruct (String.eqb auth_choice "1"), (String.eqb auth_choice "2"),
        (negb (String.eqb remote_dir "")), (isdigit port), (negb (String.eqb hostname ""));
        by rewrite ?lookup_insert_ne. }
  clearbody c4. cbv beta iota zeta delta [getitem ret raise].
  destruct (c4 !! "auth_method") as [auth|]; [|done].
  destruct (eq_str auth "key").
  - cbv beta iota zeta delta [bind ret].
    destruct (input_strip _ w4) as [[key_path|?] w5]; [|done].
    intros [= <- _]. destruct (negb (String.eqb key_path "")); [|done].
    destruct H4 as [Hdom Hother]. split.
    + rewrite dom_insert_L. set_unfold. intros x Hx. right. by apply Hdom.
    + intros key Hkey. rewrite lookup_insert_ne; [by apply Hother|].
      intros <-. apply Hkey. set_unfold. tauto.
  - by intros [= <- _].
Qed.

Lemma edit_prompts_keep_fields_witness :
  exists config w',
    edit_prompts (<["password" := VStr "secret"]> sample_config)
      (sample_world ["pi@other"; "2222"; "~/w"; "2"] friendly) = (Ok config, w') /\
    config !! "password" = Some (VStr "secret").
Proof.
  eexists _, _. split; [by vm_compute|].
  etransitivity;
    [eapply (edit_prompts_keep_fields (<["password" := VStr "secret"]> sample_config)
               (sample_world ["pi@other"; "2222"; "~/w"; "2"] friendly));
     [by vm_compute|]|by vm_compute].
  intros H. repeat (apply elem_of_cons in H as [H|H]; [discriminate H|]).
  by apply elem_of_nil in H.
Defined.



(** ** The batch of copies *)

Lemma scp_command_ok config verbose hostname port remote_dir file_path w :
  key_path_is_str config ->
  exists args, scp_command config verbose hostname port remote_dir file_path w = (Ok args, w).
Proof.
  intros Hkp. unfold scp_command, get. py_simpl.
  destruct (config !! "key_path") as [key|] eqn:Hkey; cbn [default].
  2: { rewrite andb_false_r. by eexists. }
  destruct (Hkp _ Hkey) as [s ->].
  destruct (eq_str _ _ && truthy _); [|by eexists].
  case_bool_decide; by eexists.
Qed.

Lemma push_one_exact config verbose hostname port remote_dir count file_path w :
  exists count' evs,
    push_one config verbose hostname port remote_dir count file_path w
      = (Ok count', emits evs w) /\
    count' = (count + length (List.filter passed (copies evs)))%nat /\
    Forall (fun ev => copy_source ev = Some (VStr file_path)) (copies evs) /\
    (fs w !! file_path = None -> copies evs = []) /\
    (is_Some (fs w !! file_path) -> key_path_is_str config -> length (copies evs) = 1%nat).
Proof.
  destruct (push_one_spec config verbose hostname port remote_dir count file_path w)
    as (count' & evs & Heq & Hcases).
  exists count', evs. split; [done|].
  assert (Hattempt : is_Some (fs w !! file_path) -> key_path_is_str config ->
                     copies evs <> []).
  { intros Hex Hkp. revert Heq. unfold push_one.
    cbv beta iota zeta delta [bind path_exists].
    rewrite bool_decide_eq_true_2 by done. cbn [negb]. py_simpl.
    destruct (scp_command_ok config verbose hostname port remote_dir file_path w Hkp)
      as [args Hargs].
    destruct (scp_command_pure config verbose hostname port remote_dir file_path w)
      as (r & Hr & Hshape).
    rewrite Hargs in Hr. injection Hr as <-. destruct (Hshape _ eq_refl) as [Hhd _].
    rewrite Hargs.
    destruct verbose; cbn [negb]; rewrite subprocess_run_spec;
      match goal with |- context [child_outcome args ?w0] =>
        destruct (child_outcome args w0) as [rc out err|e] end;
      cbn [returncode]; try destruct (rc =? 0);
      world_norm; intros [= _ Hw]; apply app_inv_head in Hw; subst evs;
      cbn [copies List.filter is_copy]; by rewrite bool_decide_eq_true_2. }
  destruct Hcases as [[Hc ->]|(args & res & Hc & Hex & Hsrc & ->)]; rewrite Hc in *.
  - split; [cbn; lia|]. split; [constructor|]. split; [done|].
    intros Hex Hkp. by destruct (Hattempt Hex Hkp).
  - split; [cbn [List.filter passed length]; destruct (copy_passes res); cbn; lia|].
    split; [by repeat constructor|]. split; [|done].
    intros Hnone. rewrite Hnone in Hex. by destruct Hex.
Qed.

Lemma push_loop_exact config verbose hostname port remote_dir files :
  forall count w, exists count' evs,
    push_loop config verbose hostname port remote_dir files count w
      = (Ok count', emits evs w) /\
    count' = (count + length (List.filter passed (copies evs)))%nat /\
    Forall (fun ev => exists p, p ∈ files /\ copy_source ev = Some (VStr p)) (copies evs) /\
    (key_path_is_str config ->
       copy_source <$> copies evs
       = (fun p => Some (VStr p)) <$>
           List.filter (fun p => bool_decide (is_Some (fs w !! p))) files).
Proof.
  induction files as [|file_path files IH]; intros count w.
  - exists count, []. rewrite emits_nil. cbn. split; [done|]. split; [lia|]. by split.
  - cbn [push_loop]. unfold bind at 1.
    destruct (push_one_exact config verbose hostname port remote_dir count file_path w)
      as (c1 & evs1 & -> & -> & Hsrc1 & Hmiss & Hatt).
    destruct (IH (count + length (List.filter passed (copies evs1)))%nat (emits evs1 w))
      as (c2 & evs2 & -> & -> & Hsrc2 & Hall).
    rewrite emits_emits. eexists _, _. split; [reflexivity|].
    rewrite copies_app, List.filter_app, length_app. split; [lia|]. split.
    + apply Forall_app. split.
      * eapply Forall_impl; [exact Hsrc1|]. intros ev Hev. exists file_path.
        split; [by left|done].
      * eapply Forall_impl; [exact Hsrc2|]. intros ev (p & Hp & Hev). exists p.
        split; [by right|done].
    + intros Hkp. rewrite fmap_app, (Hall Hkp). cbn [fs emits List.filter].
      case_bool_decide as Hex.
      * specialize (Hatt Hex Hkp).
        destruct (copies evs1) as [|ev [|ev' l]]; try done.
        apply Forall_cons in Hsrc1 as [Hev _]. cbn. by rewrite Hev.
      * rewrite Hmiss; [done|].
        destruct (fs w !! file_path) eqn:Hf; [|done]. destruct Hex. eauto.
Qed.

Lemma push_files_reaches_loop files config verbose hostname remote_dir w :
  files <> [] ->
  config !! "hostname" = Some hostname ->
  config !! "remote_dir" = Some remote_dir ->
  (ensure_remote_directory config remote_dir w).1 = Ok true ->
  exists evs_e evs_l,
    copies evs_e = [] /\
    push_files files config verbose w
      = (Ok (bool_decide (length (List.filter passed (copies evs_l)) = length files)),
         emits (evs_e ++ evs_l ++
                [Logged INFO (tally (length (List.filter passed (copies evs_l)))
                                    (length files))]) w) /\
    Forall (fun ev => exists p, p ∈ files /\ copy_source ev = Some (VStr p)) (copies evs_l) /\
    (key_path_is_str config ->
       copy_source <$> copies evs_l
       = (fun p => Some (VStr p)) <$>
           List.filter (fun p => bool_decide (is_Some (fs w !! p))) files).
Proof.
  intros Hne Hh Hrd Hens.
  destruct (ensure_remote_directory_spec config remote_dir w) as (b & evs_e & He & Hce).
  rewrite He in Hens. cbn [fst] in Hens. injection Hens as ->.
  destruct (push_loop_exact config verbose hostname (get config "port" (VInt 22))
              remote_dir files 0%nat (emits evs_e w))
    as (count & evs_l & Hl & -> & Hsrc & Hall).
  exists evs_e, evs_l. split; [done|]. split; [|split; [done|exact Hall]].
  unfold push_files, nonempty.
  rewrite bool_decide_eq_true_2 by (intros ->; by rewrite lookup_empty in Hh).
  cbn [negb]. rewrite bool_decide_eq_false_2 by done.
  cbv beta iota zeta delta [bind getitem]. rewrite Hh, Hrd. py_simpl.
  rewrite He. cbn [negb]. rewrite Hl. world_norm. cbn [Nat.add].
  unfold tally. reflexivity.
Qed.

(** X12: when [push_files] gets as far as its loop (a non-empty list, a
    record with host and remote directory, the directory made sure of),
    and the key path of the record, if any, is a string, it starts one copy
    for every path that exists on the local disk, in the order of the
    list and whatever became of the copies before, and none for a path
    that does not exist. *)
Theorem push_attempts_every_existing_file files config verbose hostname remote_dir w :
  files <> [] ->
  config !! "hostname" = Some hostname ->
  config !! "remote_dir" = Some remote_dir ->
  key_path_is_str config ->
  (ensure_remote_directory config remote_dir w).1 = Ok true ->
  exists b evs,
    push_files files config verbose w = (Ok b, emits evs w) /\
    copy_source <$> copies evs
    = (fun p => Some (VStr p)) <$>
        List.filter (fun p => bool_decide (is_Some (fs w !! p))) files.
Proof.
  intros Hne Hh Hrd Hkp Hens.
  destruct (push_files_reaches_loop files config verbose hostname remote_dir w
              Hne Hh Hrd Hens) as (evs_e & evs_l & Hce & Heq & _ & Hall).
  eexists _, _. split; [exact Heq|].
  rewrite !copies_app, Hce. cbn [app copies List.filter is_copy]. rewrite app_nil_r.
  by apply Hall.
Qed.

Lemma sample_key_path_is_str : key_path_is_str sample_config.
Proof. intros v Hv. vm_compute in Hv. injection Hv as <-. by eexists. Qed.

Lemma push_attempts_every_existing_file_witness :
  exists b evs,
    push_files ["a.txt"; "missing.txt"; "b.txt"] sample_config false
      (sample_world [] friendly)
      = (Ok b, emits evs (sample_world [] friendly)) /\
    copy_source <$> copies evs
    = (fun p => Some (VStr p)) <$>
        List.filter (fun p => bool_decide (is_Some (fs (sample_world [] friendly) !! p)))
          ["a.txt"; "missing.txt"; "b.txt"].
Proof.
  apply (push_attempts_every_existing_file _ _ _ (VStr "user@host") (VStr "~/work")).
  - intros H. discriminate H.
  - by vm_compute.
  - by vm_compute.
  - exact sample_key_path_is_str.
  - by vm_compute.
Defined.

(** X13: when [push_files] gets as far as its loop, the last thing it
    does is log the tally line, whose count is the number of copies that
    exited with status 0 and whose total is the length of the list, and it
    returns whether the two are equal. *)
Theorem push_tally_counts_passed_copies files config verbose hostname remote_dir w :
  files <> [] ->
  config !! "hostname" = Some hostname ->
  config !! "remote_dir" = Some remote_dir ->
  (ensure_remote_directory config remote_dir w).1 = Ok true ->
  exists evs,
    let count := length (List.filter passed (copies evs)) in
    push_files files config verbose w
      = (Ok (bool_decide (count = length files)),
         emits (evs ++ [Logged INFO (tally count (length files))]) w).
Proof.
  intros Hne Hh Hrd Hens.
  destruct (push_files_reaches_loop files config verbose hostname remote_dir w
              Hne Hh Hrd Hens) as (evs_e & evs_l & Hce & Heq & _ & _).
  exists (evs_e ++ evs_l)%list. cbn zeta.
  rewrite copies_app, Hce. cbn [app]. by rewrite <- app_assoc.
Qed.

Lemma push_tally_counts_passed_copies_witness :
  exists evs,
    let count := length (List.filter passed (copies evs)) in
    push_files ["a.txt"; "missing.txt"] sample_config true (sample_world [] friendly)
      = (Ok (bool_decide (count = length ["a.txt"; "missing.txt"])),
         emits (evs ++ [Logged INFO (tally count (length ["a.txt"; "missing.txt"]))])
           (sample_world [] friendly)).
Proof.
  apply (push_tally_counts_passed_copies _ _ _ (VStr "user@host") (VStr "~/work")).
  - intros H. discriminate H.
  - by vm_compute.
  - by vm_compute.
  - by vm_compute.
Defined.

Lemma push_files_sources files config verbose w :
  exists r evs,
    push_files files config verbose w = (r, emits evs w) /\
    Forall (fun ev => exists p, p ∈ files /\ copy_source ev = Some (VStr p)) (copies evs).
Proof.
  destruct (push_files_cases files config verbose w) as (r & evs & Heq & Hcases).
  exists r, evs. split; [done|].
  destruct Hcases as
    [(_ & -> & Hruns)
    |[(_ & _ & _ & -> & key & ->)
    |[(h & rd & evs_e & _ & _ & _ & _ & _ & -> & Hc)
    |(h & rd & evs_e & evs_l & count & _ & Hne & Hh & Hrd & He & Hl & -> & Hc & _)]]].
  - by rewrite (copies_are_runs _ Hruns).
  - done.
  - by rewrite Hc.
  - rewrite Hc.
    destruct (push_loop_exact config verbose h (get config "port" (VInt 22)) rd files
                0%nat (emits evs_e w)) as (c & evs' & Hl' & _ & Hsrc & _).
    rewrite Hl in Hl'. injection Hl' as _ Hw. apply app_inv_head in Hw. by subst evs'.
Qed.

(** X14: [push_files] never copies a file it was not given: whatever the
    record, the list and the world, every copy it starts has one of the
    paths of the list as its source, and when it raises it has started no
    child process at all. *)
Theorem push_copies_only_listed_files files config verbose w :
  exists r evs,
    push_files files config verbose w = (r, emits evs w) /\
    Forall (fun ev => exists p, p ∈ files /\ copy_source ev = Some (VStr p)) (copies evs) /\
    (forall e, r = Raise e -> evs = []).
Proof.
  destruct (push_files_sources files config verbose w) as (r & evs & Heq & Hsrc).
  exists r, evs. split; [done|]. split; [done|].
  destruct (push_files_cases files config verbose w) as (r' & evs' & Heq' & Hcases).
  rewrite Heq in Heq'. injection Heq' as <- Hw. apply app_inv_head in Hw. subst evs'.
  intros e ->.
  destruct Hcases as
    [(_ & [=] & _)
    |[(_ & _ & _ & -> & _)
    |[(h & rd & evs_e & _ & _ & _ & _ & _ & [=] & _)
    |(h & rd & evs_e & evs_l & count & _ & _ & _ & _ & _ & _ & [=] & _)]]].
  done.
Qed.

(** ** The files of the working directory *)

Lemma scan_items_filter dir current_dir items :
  forall files,
    scan_items dir current_dir items files
    = (files ++ List.filter (pushable dir current_dir) items)%list.
Proof.
  induction items as [|item items IH]; intros files; cbn [scan_items List.filter].
  - by rewrite app_nil_r.
  - rewrite IH. unfold pushable at 2.
    destruct (negb (hidden item) && isfile dir (path_join current_dir item)).
    + by rewrite <- app_assoc.
    + done.
Qed.

Lemma hidden_config_file : hidden CONFIG_FILE = true.
Proof. reflexivity. Qed.

Lemma get_all_non_hidden_files_cases dir w :
  get_all_non_hidden_files dir w
  = match getcwd dir with
    | Raise e => (Raise e, w)
    | Ok current_dir =>
        match listdir dir current_dir with
        | Raise e =>
            (Ok [], emits [Logged ERROR ("Error scanning directory: " ++ str_exn e)] w)
        | Ok items =>
            let files := List.filter (pushable dir current_dir) items in
            (Ok files,
             emits [if bool_decide (files = [])
                    then Logged WARNING "No non-hidden files found in current directory."
                    else Logged INFO ("Found " ++ pretty (length files) ++
                                      " non-hidden files to push.")] w)
        end
    end.
Proof.
  unfold get_all_non_hidden_files, lift.
  destruct (getcwd dir) as [current_dir|e]; py_simpl; [|done].
  destruct (listdir dir current_dir) as [items|e]; [|done].
  rewrite scan_items_filter. cbn [app]. by case_bool_decide.
Qed.

Lemma pushable_not_hidden dir current_dir items :
  Forall (fun item => hidden item = false) (List.filter (pushable dir current_dir) items).
Proof.
  apply Forall_forall. intros item Hin. apply list_elem_of_In, List.filter_In in Hin.
  destruct Hin as [_ Hp]. unfold pushable in Hp.
  apply andb_true_iff in Hp as [Hp _]. by apply negb_true_iff in Hp.
Qed.

(** X15: when the working directory can be listed,
    [get_all_non_hidden_files] returns, in the order of the listing, the
    names that do not start with a dot and are regular files, and logs
    one line: a warning when there is none, their number otherwise. *)
Theorem get_all_non_hidden_files_is_filter dir current_dir items w :
  getcwd dir = Ok current_dir ->
  listdir dir current_dir = Ok items ->
  let files := List.filter (pushable dir current_dir) items in
  get_all_non_hidden_files dir w
  = (Ok files,
     emits [if bool_decide (files = [])
            then Logged WARNING "No non-hidden files found in current directory."
            else Logged INFO ("Found " ++ pretty (length files) ++
                              " non-hidden files to push.")] w).
Proof.
  intros Hcwd Hitems files. rewrite get_all_non_hidden_files_cases, Hcwd, Hitems. done.
Qed.

Lemma get_all_non_hidden_files_is_filter_witness :
  get_all_non_hidden_files sample_directory (sample_world [] friendly)
  = (Ok ["a.txt"; "b.txt"],
     emits [Logged INFO "Found 2 non-hidden files to push."] (sample_world [] friendly)).
Proof.
  apply (get_all_non_hidden_files_is_filter sample_directory "/home/user/project"
           ["a.txt"; ".ssh_push_config.json"; "build"; "b.txt"; ".git"]);
    reflexivity.
Defined.

(** X16: [get_all_non_hidden_files] only logs: it starts no child
    process and leaves the disk alone.  A list it returns holds no name
    that starts with a dot, so never the configuration file; it raises
    only when the working directory cannot be determined, and when the
    listing fails it returns the empty list after one logged error. *)
Theorem get_all_non_hidden_files_safe dir w :
  exists r evs,
    get_all_non_hidden_files dir w = (r, emits evs w) /\
    List.filter is_run evs = [] /\
    (forall files, r = Ok files ->
       Forall (fun item => hidden item = false) files /\ CONFIG_FILE ∉ files) /\
    (forall e, r = Raise e -> getcwd dir = Raise e /\ evs = []) /\
    (forall current_dir e,
       getcwd dir = Ok current_dir -> listdir dir current_dir = Raise e ->
       r = Ok [] /\ evs = [Logged ERROR ("Error scanning directory: " ++ str_exn e)]).
Proof.
  rewrite get_all_non_hidden_files_cases.
  destruct (getcwd dir) as [current_dir|e] eqn:Hcwd.
  2: { exists (Raise e), []. rewrite emits_nil. split; [done|]. split; [done|].
       split; [done|]. split; [by intros ? [= <-]|done]. }
  destruct (listdir dir current_dir) as [items|e] eqn:Hitems.
  - pose proof (pushable_not_hidden dir current_dir items) as Hfiles.
    assert (Hcfg : CONFIG_FILE ∉ List.filter (pushable dir current_dir) items).
    { intros Hin. rewrite Forall_forall in Hfiles. by specialize (Hfiles _ Hin). }
    cbn zeta.
    case_bool_decide; (eexists _, [_]; split; [reflexivity|]); (split; [done|]);
      (split; [intros ? [= <-]; by split|]); (split; [done|]);
      intros ? ? [= <-] ?; congruence.
  - eexists _, [_]. split; [reflexivity|]. split; [done|].
    split; [intros ? [= <-]; split; [constructor|intros Hin; inversion Hin]|].
    split; [done|]. intros ? ? [= <-] Hl. rewrite Hitems in Hl. by injection Hl as <-.
Qed.

(** ** Showing the configuration *)

Lemma show_items_emits items w :
  show_items items w
  = (Ok tt, emits (List.map (fun kv => Printed (shown kv.1 kv.2)) items) w).
Proof.
  revert w. induction items as [|[key value] items IH]; intros w; cbn [show_items List.map].
  - by rewrite emits_nil.
  - unfold bind at 1.
    assert ((if String.eqb key "password"
             then print (key ++ ": " ++
                         (if truthy value then repeat_str "*" (String.length (str value))
                          else "None"))
             else print (key ++ ": " ++ str value)) w
            = (Ok tt, emits [Printed (shown key value)] w)) as ->.
    { unfold shown. by destruct (String.eqb key "password"). }
    rewrite IH, emits_emits. done.
Qed.

Lemma show_config_emits w :
  exists evs, show_config w = (Ok tt, emits evs w) /\ List.filter is_run evs = [].
Proof.
  unfold show_config. unfold bind at 1.
  destruct (load_config_stored w) as (evs0 & -> & Hevs0).
  assert (List.filter is_run evs0 = []) as Hr0 by (destruct Hevs0 as [->|[text ->]]; done).
  destruct (nonempty (stored_config w)); py_simpl.
  - rewrite show_items_emits. world_norm. eexists. split; [reflexivity|].
    rewrite List.filter_app, Hr0. cbn [app List.filter is_run].
    induction (map_to_list (stored_config w)) as [|kv l IH]; [done|exact IH].
  - world_norm. eexists. split; [reflexivity|]. by rewrite List.filter_app, Hr0.
Qed.

Lemma load_config_usable w :
  stored_config w <> ∅ -> load_config w = (Ok (stored_config w), w).
Proof.
  unfold load_config, stored_config. py_simpl. unfold open_json_load.
  case_bool_decide as Hun; [done|].
  destruct (fs w !! CONFIG_FILE) as [[c|msg]|] eqn:Hf; try done.
  intros _. rewrite bool_decide_eq_true_2 by eauto.
  rewrite bool_decide_eq_false_2 by done. by rewrite Hf.
Qed.

(** X17: with a stored configuration, [show_config] prints the two
    header lines and then one line for every field of the record, and
    nothing else.  The line of a field other than [password] shows its
    value; the line of a [password] that is set shows as many stars as
    the password is long. *)
Theorem show_config_masks_password w :
  stored_config w <> ∅ ->
  exists lines,
    show_config w
    = (Ok tt, emits (Printed "Current SSH Configuration:" :: Printed (repeat_str "=" 30)
                     :: lines) w) /\
    length lines = size (stored_config w) /\
    (forall key value,
       stored_config w !! key = Some value -> key <> "password" ->
       Printed (key ++ ": " ++ str value) ∈ lines) /\
    (forall value,
       stored_config w !! "password" = Some value -> truthy value = true ->
       Printed ("password: " ++ repeat_str "*" (String.length (str value))) ∈ lines).
Proof.
  intros Hne. unfold show_config. unfold bind at 1.
  rewrite (load_config_usable w Hne).
  unfold nonempty. rewrite bool_decide_eq_true_2 by done. py_simpl.
  rewrite show_items_emits. world_norm.
  eexists. split; [reflexivity|]. split; [|split].
  - by rewrite length_map, length_map_to_list.
  - intros key value Hkey Hpw. apply elem_of_map_to_list in Hkey.
    apply list_elem_of_In, List.in_map_iff. exists (key, value).
    split; [|by apply list_elem_of_In]. cbn [fst snd]. unfold shown.
    apply String.eqb_neq in Hpw. by rewrite Hpw.
  - intros value Hkey Htrue. apply elem_of_map_to_list in Hkey.
    apply list_elem_of_In, List.in_map_iff. exists ("password", value).
    split; [|by apply list_elem_of_In]. cbn [fst snd]. unfold shown.
    cbn [String.eqb Ascii.eqb Bool.eqb]. by rewrite Htrue.
Qed.

Lemma show_config_masks_password_witness :
  let w := World (<[CONFIG_FILE := Json (<["password" := VStr "secret"]> sample_config)]>
                    sample_fs) ∅ ∅ [] [] friendly sample_home in
  exists lines,
    show_config w
    = (Ok tt, emits (Printed "Current SSH Configuration:" :: Printed (repeat_str "=" 30)
                     :: lines) w) /\
    length lines = size (stored_config w) /\
    (forall key value,
       stored_config w !! key = Some value -> key <> "password" ->
       Printed (key ++ ": " ++ str value) ∈ lines) /\
    (forall value,
       stored_config w !! "password" = Some value -> truthy value = true ->
       Printed ("password: " ++ repeat_str "*" (String.length (str value))) ∈ lines).
Proof.
  intros w. apply (show_config_masks_password w).
  intros H. apply (f_equal (fun c => c !! "password")) in H. vm_compute in H. discriminate H.
Defined.

(** ** The command line *)


Lemma list_remote_files_emits config w :
  exists b evs, list_remote_files config w = (Ok b, emits evs w) /\
    copies evs = [] /\
    (config = ∅ -> b = false /\ List.filter is_run evs = []).
Proof.
  unfold list_remote_files, nonempty.
  case_bool_decide as Hcfg; cbn [negb]; py_simpl; [|by eexists _, [_]].
  destruct (config !! "hostname") as [hostname|]; [|by eexists _, [_]].
  destruct (config !! "remote_dir") as [remote_dir|]; [|by eexists _, [_]].
  destruct (ssh_command_pure config (get config "port" (VInt 22)) hostname
              ("ls -la " ++ str remote_dir) w) as (r & -> & Hr).
  destruct r as [args|e]; [|by eexists _, [_]].
  specialize (Hr _ eq_refl).
  assert (forall res, is_copy (Ran args res) = false) as Hc.
  { intros res. cbn [is_copy]. rewrite Hr. by rewrite bool_decide_eq_false_2. }
  rewrite subprocess_run_spec.
  destruct (child_outcome args w) as [rc out err|e]; cbn [returncode].
  - destruct (rc =? 0); world_norm; (eexists _, _; split; [reflexivity|]);
      unfold copies; cbn [List.filter]; rewrite Hc; done.
  - world_norm. eexists _, _. split; [reflexivity|].
    unfold copies; cbn [List.filter]; rewrite Hc; done.
Qed.


Lemma load_config_quiet w :
  exists evs, load_config w = (Ok (stored_config w), emits evs w) /\
    List.filter is_run evs = [] /\ copies evs = [].
Proof.
  destruct (load_config_stored w) as (evs & Heq & [-> | [text ->]]); by exists evs + eexists.
Qed.



(** X19: without [--setup] and [--edit], [main] only prints, logs and
    starts child processes: the world it leaves differs from the one it
    found by the events it added, so the disk and the input are as they
    were.  When it returns, the exit code is 0 or 1. *)
Theorem main_reads_only help dir args w :
  arg_setup args = false ->
  arg_edit args = false ->
  exists r evs,
    main help dir args w = (r, emits evs w) /\
    (forall rc, r = Ok rc -> rc = 0 \/ rc = 1).
Proof.
  intros Hs He. unfold main. unfold bind at 1.
  destruct (load_config_quiet w) as (evs0 & -> & _ & _). rewrite Hs, He.
  destruct (arg_config args).
  { unfold bind at 1. destruct (show_config_emits (emits evs0 w)) as (evs1 & -> & _).
    py_simpl. world_norm. eexists _, _. split; [reflexivity|]. intros ? [= <-]. auto. }
  destruct (arg_test args).
  { destruct (negb (nonempty (stored_config w))); py_simpl.
    - world_norm. eexists _, _. split; [reflexivity|]. intros ? [= <-]. auto.
    - destruct (test_ssh_connection_spec (stored_config w) (emits evs0 w))
        as (b & evs1 & -> & _).
      destruct b; world_norm; (eexists _, _; split; [reflexivity|]); intros ? [= <-]; auto. }
  destruct (arg_list args).
  { unfold bind at 1.
    destruct (list_remote_files_emits (stored_config w) (emits evs0 w))
      as (b & evs1 & -> & _).
    destruct b; py_simpl; world_norm; (eexists _, _; split; [reflexivity|]);
      intros ? [= <-]; auto. }
  destruct (arg_all args).
  { unfold bind at 1. rewrite get_all_non_hidden_files_cases.
    destruct (getcwd dir) as [current_dir|e].
    2: { eexists _, _. split; [reflexivity|]. done. }
    destruct (listdir dir current_dir) as [items|e]; cbn zeta.
    2: { rewrite bool_decide_eq_true_2 by done. cbn [negb]. py_simpl. world_norm.
         eexists _, _. split; [reflexivity|]. intros ? [= <-]. auto. }
    case_bool_decide as Hfiles.
    - rewrite bool_decide_eq_true_2 by done. cbn [negb]. py_simpl. world_norm.
      eexists _, _. split; [reflexivity|]. intros ? [= <-]. auto.
    - rewrite bool_decide_eq_false_2 by done. cbn [negb]. unfold bind at 1.
      match goal with |- context [push_files ?fl ?c ?v ?w0] =>
        destruct (push_files_sources fl c v w0) as (r & evs1 & -> & _) end.
      destruct r as [[|]|e]; py_simpl; world_norm; (eexists _, _; split; [reflexivity|]);
        try (intros ? [= <-]; auto); done. }
  case_bool_decide as Hfiles; cbn [negb].
  - py_simpl. world_norm. eexists _, _. split; [reflexivity|]. intros ? [= <-]. auto.
  - unfold bind at 1.
    match goal with |- context [push_files ?fl ?c ?v ?w0] =>
      destruct (push_files_sources fl c v w0) as (r & evs1 & -> & _) end.
    destruct r as [[|]|e]; py_simpl; world_norm; (eexists _, _; split; [reflexivity|]);
      try (intros ? [= <-]; auto); done.
Qed.

Lemma main_reads_only_witness :
  exists r evs,
    main "usage" sample_directory (Args [] false false true false false false false)
      (sample_world [] friendly)
    = (r, emits evs (sample_world [] friendly)) /\
    (forall rc, r = Ok rc -> rc = 0 \/ rc = 1).
Proof. apply main_reads_only; reflexivity. Defined.



(** X21: with [--all] (and none of the flags that come before it),
    [main] copies only regular files of the working directory whose name
    does not start with a dot: every copy it starts has such a name of
    the listing as its source, whatever paths the command line names.
    The configuration file is never among them. *)
Theorem main_all_copies_only_plain_files help dir args w :
  arg_setup args = false ->
  arg_edit args = false ->
  arg_config args = false ->
  arg_test args = false ->
  arg_list args = false ->
  arg_all args = true ->
  exists r evs,
    main help dir args w = (r, emits evs w) /\
    Forall (fun ev => exists current_dir items p,
              getcwd dir = Ok current_dir /\ listdir dir current_dir = Ok items /\
              p ∈ items /\ hidden p = false /\
              isfile dir (path_join current_dir p) = true /\
              copy_source ev = Some (VStr p))
           (copies evs) /\
    Forall (fun ev => copy_source ev <> Some (VStr CONFIG_FILE)) (copies evs).
Proof.
  intros Hs He Hc Ht Hl Ha.
  enough (exists r evs,
    main help dir args w = (r, emits evs w) /\
    Forall (fun ev => exists current_dir items p,
              getcwd dir = Ok current_dir /\ listdir dir current_dir = Ok items /\
              p ∈ items /\ hidden p = false /\
              isfile dir (path_join current_dir p) = true /\
              copy_source ev = Some (VStr p))
           (copies evs)) as (r & evs & Heq & Hall).
  { exists r, evs. split; [done|]. split; [done|].
    eapply Forall_impl; [exact Hall|]. cbn beta.
    intros ev (cd & items & p & _ & _ & _ & Hh & _ & Hsrc) Hcfg.
    rewrite Hsrc in Hcfg. injection Hcfg as ->. by rewrite hidden_config_file in Hh. }
  unfold main. unfold bind at 1.
  destruct (load_config_quiet w) as (evs0 & -> & _ & Hc0). rewrite Hs, He, Hc, Ht, Hl, Ha.
  unfold bind at 1. rewrite get_all_non_hidden_files_cases.
  destruct (getcwd dir) as [current_dir|e] eqn:Hcwd.
  2: { eexists _, _. split; [reflexivity|]. by rewrite Hc0. }
  destruct (listdir dir current_dir) as [items|e] eqn:Hitems; cbn zeta.
  2: { rewrite bool_decide_eq_true_2 by done. cbn [negb]. py_simpl. world_norm.
       eexists _, _. split; [reflexivity|]. by rewrite copies_app, Hc0. }
  case_bool_decide as Hfiles.
  - rewrite bool_decide_eq_true_2 by done. cbn [negb]. py_simpl. world_norm.
    eexists _, _. split; [reflexivity|]. by rewrite copies_app, Hc0.
  - rewrite bool_decide_eq_false_2 by done. cbn [negb]. unfold bind at 1.
    match goal with |- context [push_files ?fl ?c ?v ?w0] =>
      destruct (push_files_sources fl c v w0) as (r & evs1 & -> & Hsrc) end.
    assert (Hgoal : Forall (fun ev => exists current_dir items p,
              getcwd dir = Ok current_dir /\ listdir dir current_dir = Ok items /\
              p ∈ items /\ hidden p = false /\
              isfile dir (path_join current_dir p) = true /\
              copy_source ev = Some (VStr p))
           (copies evs1)).
    { eapply Forall_impl; [exact Hsrc|]. cbn beta. intros ev (p & Hin & Hev).
      apply list_elem_of_In, List.filter_In in Hin. destruct Hin as [Hin Hp].
      unfold pushable in Hp. apply andb_true_iff in Hp as [Hh Hf].
      apply negb_true_iff in Hh. apply list_elem_of_In in Hin.
      exists current_dir, items, p. done. }
    rewrite Hcwd in Hgoal.
    destruct r as [[|]|e]; py_simpl; world_norm; (eexists _, _; split; [reflexivity|]);
      rewrite !copies_app, Hc0; cbn [app copies List.filter is_copy];
      rewrite ?app_nil_r; exact Hgoal.
Qed.

Lemma main_all_copies_only_plain_files_witness :
  let w := World (<[CONFIG_FILE := Json sample_config]> sample_fs) ∅ ∅ [] []
             friendly sample_home in
  exists r evs,
    main "usage" sample_directory (Args ["build"] false false true false false false false) w
    = (r, emits evs w) /\
    Forall (fun ev => exists current_dir items p,
              getcwd sample_directory = Ok current_dir /\
              listdir sample_directory current_dir = Ok items /\
              p ∈ items /\ hidden p = false /\
              isfile sample_directory (path_join current_dir p) = true /\
              copy_source ev = Some (VStr p))
           (copies evs) /\
    Forall (fun ev => copy_source ev <> Some (VStr CONFIG_FILE)) (copies evs).
Proof. intros w. apply main_all_copies_only_plain_files; reflexivity. Defined.

(** X22: [--test] with a stored configuration (and none of the flags
    that come before it) never raises: [main] ends with exit code 0 when
    the probe's command ran and passed, with exit code 1 otherwise, and
    the last thing it does is print the verdict. *)
Theorem main_test_exit_code help dir args w :
  arg_setup args = false ->
  arg_edit args = false ->
  arg_config args = false ->
  arg_test args = true ->
  stored_config w <> ∅ ->
  exists rc evs,
    main help dir args w = (Ok rc, emits evs w) /\
    (rc = 0 \/ rc = 1) /\
    (rc = 0 <->
     exists args' res, List.filter is_run evs = [Ran args' res] /\ probe_passes res = true) /\
    last evs = Some (Printed (if rc =? 0 then "✓ SSH connection successful!"
                              else "✗ SSH connection failed.")).
Proof.
  intros Hs He Hc Ht Hne. unfold main. unfold bind at 1.
  rewrite (load_config_usable w Hne), Hs, He, Hc, Ht.
  unfold nonempty. rewrite bool_decide_eq_true_2 by done. cbn [negb].
  unfold bind at 1.
  destruct (test_ssh_connection_spec (stored_config w) w) as (b & evs & -> & Hcases).
  destruct b; py_simpl; world_norm; (eexists _, _; split; [reflexivity|]);
    rewrite List.filter_app, last_snoc; cbn [List.filter is_run]; rewrite app_nil_r.
  - split; [by left|]. split; [|done]. split; [intros _|done].
    destruct Hcases as [[? _]|(args' & res & Hone & _ & Hp)]; [done|]. eauto.
  - split; [by right|]. split; [|done]. split; [done|].
    intros (args' & res & Hone & Hp).
    destruct Hcases as [[_ Hno]|(args'' & res' & Hone' & _ & Hp')]; [by rewrite Hno in Hone|].
    rewrite Hone' in Hone. injection Hone as _ <-. congruence.
Qed.

Lemma main_test_exit_code_witness :
  let w := World (<[CONFIG_FILE := Json sample_config]> sample_fs) ∅ ∅ [] []
             unreachable sample_home in
  exists rc evs,
    main "usage" sample_directory (Args [] false false false false true false false) w
    = (Ok rc, emits evs w) /\
    (rc = 0 \/ rc = 1) /\
    (rc = 0 <->
     exists args' res, List.filter is_run evs = [Ran args' res] /\ probe_passes res = true) /\
    last evs = Some (Printed (if rc =? 0 then "✓ SSH connection successful!"
                              else "✗ SSH connection failed.")).
Proof.
  intros w. apply main_test_exit_code; try reflexivity.
  intros H. apply (f_equal (fun c => c !! "hostname")) in H. vm_compute in H. discriminate H.
Defined.

Lemma persist_edit_ssh_config existing_config w :
  writes_after_probe (edit_ssh_config existing_config) w.
Proof.
  apply persist_after; [apply quiet_edit_prompts|]. intros; apply persist_probe_and_save.
Qed.

Lemma persist_setup_ssh_config w : writes_after_probe setup_ssh_config w.
Proof.
  unfold setup_ssh_config. apply persist_after; [apply quiet_load_config|].
  intros loaded w0.
  assert (Hcreate : forall w1, writes_after_probe create_ssh_config w1).
  { intros w1. apply persist_after; [apply quiet_create_prompts|].
    intros; apply persist_probe_and_save. }
  destruct (nonempty loaded); [|done].
  repeat (apply persist_after;
          [first [apply quiet_print | apply quiet_print_items | apply quiet_ask]|intros ? ?]).
  match goal with |- writes_after_probe (match ?c with _ => _ end) _ => destruct c end.
  - apply persist_edit_ssh_config.
  - apply persist_after; [apply quiet_print|]. done.
  - apply persist_after; [apply quiet_print|]. intros; apply persist_ret_empty.
Qed.

(** X23: with [--setup] or [--edit], [main] ends with exit code 0 only
    after a probe that passed, and the disk is changed only after a probe
    that passed; after a probe whose command did not pass, the exit code
    is 1 and the disk is as it was. *)
Theorem main_configures_only_after_probe help dir args w :
  arg_setup args = true \/ arg_edit args = true ->
  exists r w' evs,
    main help dir args w = (r, w') /\
    trace w' = (trace w ++ evs)%list /\
    (r = Ok 0 -> probe_succeeded evs) /\
    (fs w' <> fs w -> probe_succeeded evs) /\
    (probe_failed evs -> r = Ok 1 /\ fs w' = fs w).
Proof.
  intros Hflag.
  assert (Hlift : forall (flow : M (gmap string value)) w0,
    writes_after_probe flow w0 ->
    exists r w' evs,
      (made <- flow ;; if nonempty made then ret 0 else ret 1) w0 = (r, w') /\
      trace w' = (trace w0 ++ evs)%list /\
      (r = Ok 0 -> probe_succeeded evs) /\
      (fs w' <> fs w0 -> probe_succeeded evs) /\
      (probe_failed evs -> r = Ok 1 /\ fs w' = fs w0)).
  { intros flow w0 (r & w' & evs & Heq & Htr & Hfs & Hret & Hfail).
    unfold bind. rewrite Heq. destruct r as [made|e].
    - unfold nonempty. case_bool_decide as Hmade; py_simpl.
      + eexists _, _, evs. split; [reflexivity|]. split; [done|].
        split; [intros _; by eapply Hret|]. split; [done|].
        intros Hf. destruct (Hfail Hf) as [[= ->] _]. done.
      + eexists _, _, evs. split; [reflexivity|]. split; [done|].
        split; [done|]. split; [done|].
        intros Hf. destruct (Hfail Hf) as [_ ?]. done.
    - eexists _, _, evs. split; [reflexivity|]. split; [done|].
      split; [done|]. split; [done|].
      intros Hf. by destruct (Hfail Hf) as [[=] _]. }
  assert (Hpre : forall (k : M Z) evs0,
    List.filter is_run evs0 = [] ->
    (exists r w' evs,
      k (emits evs0 w) = (r, w') /\
      trace w' = (trace (emits evs0 w) ++ evs)%list /\
      (r = Ok 0 -> probe_succeeded evs) /\
      (fs w' <> fs (emits evs0 w) -> probe_succeeded evs) /\
      (probe_failed evs -> r = Ok 1 /\ fs w' = fs (emits evs0 w))) ->
    exists r w' evs,
      k (emits evs0 w) = (r, w') /\
      trace w' = (trace w ++ evs)%list /\
      (r = Ok 0 -> probe_succeeded evs) /\
      (fs w' <> fs w -> probe_succeeded evs) /\
      (probe_failed evs -> r = Ok 1 /\ fs w' = fs w)).
  { intros k evs0 Hr0 (r & w' & evs & Heq & Htr & Hz & Hfs & Hfail).
    exists r, w', (evs0 ++ evs)%list. split; [done|].
    split; [by rewrite Htr; cbn [trace emits]; rewrite app_assoc|].
    assert (Hmono : probe_succeeded evs -> probe_succeeded (evs0 ++ evs)).
    { intros (a & res & Hin & Hp). exists a, res. split; [|done].
      apply elem_of_app. by right. }
    split; [auto|]. split; [auto|].
    intros (a & res & Hin & Hp). apply Hfail. exists a, res. split; [|done].
    apply elem_of_app in Hin as [Hin|Hin]; [|done].
    apply run_in_filter in Hin. rewrite Hr0 in Hin. by apply elem_of_nil in Hin. }
  unfold main. unfold bind at 1.
  destruct (load_config_quiet w) as (evs0 & -> & Hr0 & _).
  destruct (arg_setup args) eqn:Hs.
  { apply Hpre; [done|]. apply Hlift, persist_setup_ssh_config. }
  destruct Hflag as [?|He]; [done|]. rewrite He.
  unfold bind at 1.
  destruct (load_config_quiet (emits evs0 w)) as (evs1 & -> & Hr1 & _).
  rewrite emits_emits.
  assert (List.filter is_run (evs0 ++ evs1) = []) as Hr01
    by (by rewrite List.filter_app, Hr0, Hr1).
  destruct (negb (nonempty (stored_config (emits evs0 w)))).
  - py_simpl. world_norm. eexists _, _, _. split; [reflexivity|].
    split; [done|].
    assert (forall evs', List.filter is_run evs' = [] -> ~ probe_succeeded evs' /\
                                                          ~ probe_failed evs') as Hno.
    { intros evs' Hr'. split; intros (a & res & Hin & _);
        apply run_in_filter in Hin; rewrite Hr' in Hin; by apply elem_of_nil in Hin. }
    destruct (Hno ((evs0 ++ evs1) ++ [Logged ERROR
                "No SSH configuration found. Run --setup first."])%list) as [_ Hnf].
    { by rewrite List.filter_app, Hr01. }
    split; [done|]. split; [done|]. intros Hf. by destruct Hnf.
  - apply (Hpre (fun w0 => (edited <- edit_ssh_config (stored_config (emits evs0 w)) ;;
                            if nonempty edited then ret 0 else ret 1) w0)); [done|].
    apply Hlift, persist_edit_ssh_config.
Qed.

Lemma main_configures_only_after_probe_witness :
  exists r w' evs,
    main "usage" sample_directory (Args [] true false false false false false false)
      (sample_world ["user@host"; ""; ""; "2"] friendly) = (r, w') /\
    trace w' = (trace (sample_world ["user@host"; ""; ""; "2"] friendly) ++ evs)%list /\
    (r = Ok 0 -> probe_succeeded evs) /\
    (fs w' <> fs (sample_world ["user@host"; ""; ""; "2"] friendly) ->
     probe_succeeded evs) /\
    (probe_failed evs ->
     r = Ok 1 /\ fs w' = fs (sample_world ["user@host"; ""; ""; "2"] friendly)).
Proof. apply main_configures_only_after_probe. by left. Defined.

(** ** The copy command *)

Lemma scp_command_shape config verbose hostname port remote_dir file_path w :
  exists r, scp_command config verbose hostname port remote_dir file_path w = (r, w) /\
    forall args, r = Ok args ->
      copy_command config verbose hostname port remote_dir w file_path args.
Proof.
  unfold scp_command, get. py_simpl.
  destruct (eq_str (default VNull (config !! "auth_method")) "key") eqn:Hauth; cbn [andb].
  2: { eexists. split; [reflexivity|]. intros ? [= <-]. exists [].
       split; [by destruct verbose|by left]. }
  destruct (truthy (default VNull (config !! "key_path"))).
  2: { eexists. split; [reflexivity|]. intros ? [= <-]. exists [].
       split; [by destruct verbose|by left]. }
  assert (config !! "auth_method" = Some (VStr "key")) as Hkey.
  { unfold eq_str in Hauth. apply bool_decide_eq_true_1 in Hauth.
    destruct (config !! "auth_method"); simpl in Hauth; [by rewrite Hauth|discriminate Hauth]. }
  destruct (config !! "key_path") as [key|]; [|by eexists].
  destruct key as [| | |s]; try by eexists.
  case_bool_decide as Hex; (eexists; split; [reflexivity|]; intros ? [= <-]).
  - exists [VStr "-i"; VStr (home w s)]. split; [by destruct verbose|]. right. eauto.
  - exists []. split; [by destruct verbose|by left].
Qed.

Lemma push_one_shape config verbose hostname port remote_dir count file_path w :
  exists count' evs,
    push_one config verbose hostname port remote_dir count file_path w
      = (Ok count', emits evs w) /\
    Forall (fun ev => exists args res,
              ev = Ran args res /\ is_Some (fs w !! file_path) /\
              copy_command config verbose hostname port remote_dir w file_path args)
           (copies evs).
Proof.
  unfold push_one.
  cbv beta iota zeta delta [bind path_exists].
  case_bool_decide as Hex; cbn [negb]; py_simpl.
  2: { eexists _, [_]. split; [reflexivity|]. constructor. }
  destruct (scp_command_shape config verbose hostname port remote_dir file_path w)
    as (r & -> & Hr).
  destruct r as [args|e].
  2: { eexists _, [_]. split; [reflexivity|]. constructor. }
  specialize (Hr _ eq_refl).
  destruct verbose; cbn [negb]; rewrite subprocess_run_spec;
    match goal with |- context [child_outcome args ?w0] =>
      destruct (child_outcome args w0) as [rc out err|e] end;
    cbn [returncode]; try destruct (rc =? 0);
    world_norm; (eexists _, _; split; [reflexivity|]);
    cbn [app copies List.filter is_copy];
    case_bool_decide; repeat constructor; eauto.
Qed.

Lemma push_loop_shape config verbose hostname port remote_dir files :
  forall count w, exists count' evs,
    push_loop config verbose hostname port remote_dir files count w
      = (Ok count', emits evs w) /\
    Forall (fun ev => exists args res p,
              ev = Ran args res /\ p ∈ files /\ is_Some (fs w !! p) /\
              copy_command config verbose hostname port remote_dir w p args)
           (copies evs).
Proof.
  induction files as [|file_path files IH]; intros count w.
  - exists count, []. rewrite emits_nil. split; [done|]. constructor.
  - cbn [push_loop]. unfold bind at 1.
    destruct (push_one_shape config verbose hostname port remote_dir count file_path w)
      as (c1 & evs1 & -> & H1).
    destruct (IH c1 (emits evs1 w)) as (c2 & evs2 & -> & H2).
    rewrite emits_emits. eexists _, _. split; [reflexivity|].
    rewrite copies_app. apply Forall_app. split.
    + eapply Forall_impl; [exact H1|]. cbn beta. intros ev (args & res & -> & Hex & Hc).
      exists args, res, file_path. split; [done|]. split; [by left|]. done.
    + eapply Forall_impl; [exact H2|]. cbn beta. intros ev (args & res & p & -> & Hin & Hex & Hc).
      exists args, res, p. split; [done|]. split; [by right|]. done.
Qed.

(** X24: every copy [push_files] starts is the command [scp] of a path
    of the list that exists on the local disk, to the remote directory of
    the record on its host, through the port of the record (22 when it
    has none); it names a key file only when the record asks for a key
    and the file is on the disk, and it has [-v] exactly when the push
    is verbose. *)
Theorem push_copy_commands files config verbose w :
  exists r evs,
    push_files files config verbose w = (r, emits evs w) /\
    Forall (fun ev => exists args res p hostname remote_dir,
              ev = Ran args res /\ p ∈ files /\ is_Some (fs w !! p) /\
              config !! "hostname" = Some hostname /\
              config !! "remote_dir" = Some remote_dir /\
              copy_command config verbose hostname (get config "port" (VInt 22))
                remote_dir w p args)
           (copies evs).
Proof.
  destruct (push_files_cases files config verbose w) as (r & evs & Heq & Hcases).
  exists r, evs. split; [done|].
  destruct Hcases as
    [(_ & -> & Hruns)
    |[(_ & _ & _ & -> & key & ->)
    |[(h & rd & evs_e & _ & _ & _ & _ & _ & -> & Hc)
    |(h & rd & evs_e & evs_l & count & _ & Hne & Hh & Hrd & He & Hl & -> & Hc & _)]]].
  - rewrite (copies_are_runs _ Hruns). constructor.
  - constructor.
  - rewrite Hc. constructor.
  - rewrite Hc.
    destruct (push_loop_shape config verbose h (get config "port" (VInt 22)) rd files
                0%nat (emits evs_e w)) as (c & evs' & Hl' & Hshape).
    rewrite Hl in Hl'. injection Hl' as _ Hw. apply app_inv_head in Hw. subst evs'.
    eapply Forall_impl; [exact Hshape|]. cbn beta.
    intros ev (args & res & p & -> & Hin & Hex & Hcmd). exists args, res, p, h, rd. done.
Qed.
